(** * Iteach / forCoze / app2.py: the evaluation glue, embedded in Rocq

    The program renders a form, sends the five fields of a student
    project to a remote Coze workflow and shows the Markdown it gets
    back; without credentials (or without the [cozepy] package) it
    answers with a canned report.  This file embeds the five functions
    that carry that logic

      - [get_coze_client]        (app2.py, lines 19-29)
      - [extract_markdown_text]  (app2.py, lines 32-57)
      - [evaluate_with_coze]     (app2.py, lines 60-104)
      - [evaluate_mock]          (app2.py, lines 107-149)
      - [evaluate_project]       (app2.py, lines 152-154)

    and states the properties of the specification about them.

    Conventions of the embedding.

    - A Python [str] is a Rocq [string] holding its UTF-8 encoding.
      Concatenation, equality, emptiness, prefixes and suffixes commute
      with the encoding, and those are the only string operations the
      program performs.
    - A Python exception is a value of [exn]; a computation that may
      raise has type [result A].  Only instances of [Exception] are
      modelled ([KeyboardInterrupt] and [SystemExit] are not errors of
      the evaluation steps).
    - [print] writes to the console and returns nothing, but it can
      raise (a console that cannot encode the text, a closed stream);
      every call inside the five functions is kept, in its place.
    - Code that lives outside the repository is not defined here but
      taken as given: [json.loads], [str] of a value that is not a
      string, [str] of a type and [print] are variables of the section;
      the process configuration and the [cozepy] client are fields of
      [Env]. *)

From Stdlib Require Import String Ascii List ZArith Bool Lia.
From Stdlib Require Import Floats.SpecFloat DecimalString.
Import ListNotations.
Local Open Scope string_scope.
Set Warnings "-register-all".

(** ** Python values, exceptions, and the builtins the program uses *)

Module Py.

(** The values that flow through the program: what [json.loads] can
    produce, plus instances of library classes (the stream events, the
    stream object itself).  An instance is described by what the program
    can observe of it: the name of its class, its attributes in
    definition order and, when the class implements the container
    protocol ([in] and subscripting), its string-keyed items. *)
Inductive pyval : Type :=
| PNone
| PBool (b : bool)
| PInt (z : Z)
| PFloat (f : spec_float)
| PStr (s : string)
| PList (items : list pyval)
| PDict (items : list (string * pyval))
| PObj (cls : string) (attrs : list (string * pyval))
       (items : option (list (string * pyval))).

(** An exception instance: its class and the text [str(e)] gives. *)
Record exn : Type := mkExn { exn_class : string; exn_str : string }.

Inductive result (A : Type) : Type :=
| Ok (a : A)
| Raise (e : exn).
Arguments Ok {A} a.
Arguments Raise {A} e.

Definition bind {A B : Type} (m : result A) (k : A -> result B) : result B :=
  match m with
  | Ok a => k a
  | Raise e => Raise e
  end.

(** [try: body / except Exception as e: handler e]. *)
Definition try_except {A : Type} (body : result A) (handler : exn -> result A)
  : result A :=
  match body with
  | Ok a => Ok a
  | Raise e => handler e
  end.

Definition TypeError (msg : string) : exn := mkExn "TypeError" msg.
Definition KeyError (msg : string) : exn := mkExn "KeyError" msg.
Definition AttributeError (msg : string) : exn := mkExn "AttributeError" msg.

(** The double quote, for messages that contain one. *)
Definition dquote : string := String (ascii_of_nat 34) EmptyString.

(** The newline, as in the Python literal backslash-n. *)
Definition nl : string := String (ascii_of_nat 10) EmptyString.

(** [type(v).__name__] *)
Definition type_name (v : pyval) : string :=
  match v with
  | PNone => "NoneType"
  | PBool _ => "bool"
  | PInt _ => "int"
  | PFloat _ => "float"
  | PStr _ => "str"
  | PList _ => "list"
  | PDict _ => "dict"
  | PObj cls _ _ => cls
  end.

(** Lookup in an association list, first binding first. *)
Fixpoint assoc (k : string) (kvs : list (string * pyval)) : option pyval :=
  match kvs with
  | [] => None
  | (k', v) :: rest => if String.eqb k k' then Some v else assoc k rest
  end.

Definition has_key (k : string) (kvs : list (string * pyval)) : bool :=
  match assoc k kvs with
  | Some _ => true
  | None => false
  end.

(** [needle in haystack] on two [str]: a substring test. *)
Fixpoint str_contains (needle haystack : string) : bool :=
  String.prefix needle haystack
  || match haystack with
     | EmptyString => false
     | String _ rest => str_contains needle rest
     end.

(** [bool(s)] for a [str]. *)
Definition str_truthy (s : string) : bool :=
  match s with
  | EmptyString => false
  | String _ _ => true
  end.

(** [hasattr(v, name)].  The builtin types carry none of the attribute
    names the program probes ([data], [message], [content], [output]),
    so only instances answer yes. *)
Definition hasattr (v : pyval) (name : string) : bool :=
  match v with
  | PObj _ attrs _ => has_key name attrs
  | _ => false
  end.

(** [v.name] *)
Definition getattr (v : pyval) (name : string) : result pyval :=
  match v with
  | PObj cls attrs _ =>
      match assoc name attrs with
      | Some a => Ok a
      | None =>
          Raise (AttributeError
                   ("'" ++ cls ++ "' object has no attribute '" ++ name ++ "'"))
      end
  | _ =>
      Raise (AttributeError
               ("'" ++ type_name v ++ "' object has no attribute '" ++ name ++ "'"))
  end.

Definition is_str_eq (k : string) (v : pyval) : bool :=
  match v with
  | PStr s => String.eqb k s
  | _ => false
  end.

(** [k in v] for a [str] key [k]. *)
Definition contains (k : string) (v : pyval) : result bool :=
  match v with
  | PDict kvs => Ok (has_key k kvs)
  | PStr s => Ok (str_contains k s)
  | PList l => Ok (existsb (is_str_eq k) l)
  | PObj _ _ (Some kvs) => Ok (has_key k kvs)
  | _ => Raise (TypeError
                  ("argument of type '" ++ type_name v ++ "' is not iterable"))
  end.

(** [v[k]] for a [str] key [k]. *)
Definition getitem (v : pyval) (k : string) : result pyval :=
  match v with
  | PDict kvs | PObj _ _ (Some kvs) =>
      match assoc k kvs with
      | Some a => Ok a
      | None => Raise (KeyError ("'" ++ k ++ "'"))
      end
  | PStr _ => Raise (TypeError "string indices must be integers, not 'str'")
  | PList _ =>
      Raise (TypeError "list indices must be integers or slices, not str")
  | _ => Raise (TypeError
                  ("'" ++ type_name v ++ "' object is not subscriptable"))
  end.

(** [v + s] for a [str] right operand [s]. *)
Definition add_str (v : pyval) (s : string) : result string :=
  match v with
  | PStr t => Ok (t ++ s)
  | PList _ =>
      Raise (TypeError
               ("can only concatenate list (not " ++ dquote ++ "str" ++ dquote
                ++ ") to list"))
  | _ => Raise (TypeError
                  ("unsupported operand type(s) for +: '" ++ type_name v
                   ++ "' and 'str'"))
  end.

(** [sep.join(items)] for a list [items]: every item must be a [str];
    [join_from i] collects the items, [i] being the index of the first. *)
Fixpoint join_from (i : nat) (items : list pyval) : result (list string) :=
  match items with
  | [] => Ok []
  | PStr s :: rest =>
      bind (join_from (S i) rest) (fun ss => Ok (s :: ss))
  | v :: _ =>
      Raise (TypeError
               ("sequence item " ++ NilZero.string_of_uint (Nat.to_uint i)
                ++ ": expected str instance, " ++ type_name v ++ " found"))
  end.

Definition join (sep : string) (items : list pyval) : result string :=
  bind (join_from 0 items) (fun ss => Ok (String.concat sep ss)).

End Py.
Export Py.

Declare Scope py_scope.
Notation "x <- m ;; k" := (bind m (fun x => k))
  (at level 61, m at next level, right associativity) : py_scope.
Notation "m ;; k" := (bind m (fun _ => k))
  (at level 61, right associativity) : py_scope.
Local Open Scope py_scope.

(** ** The remote service and the process configuration *)

(** What iterating the response of [workflows.runs.stream] does: it
    yields an event and goes on, or it is exhausted, or it raises (a
    network failure, a malformed chunk). *)
Inductive event_stream : Type :=
| Exhausted
| Yield (event : pyval) (rest : event_stream)
| Broken (e : exn).

(** The object [stream] returns, and what iterating it gives. *)
Record StreamResponse : Type := mkResponse {
  response_object : pyval;
  response_events : event_stream
}.

(** A [cozepy] client, as far as the program uses it:
    [coze.workflows.runs.stream(workflow_id=..., parameters=...)]. *)
Record CozeClient : Type := mkClient {
  workflows_runs_stream : string -> pyval -> result StreamResponse
}.

(** What a request finds around it: whether [import cozepy] succeeded
    when the module was loaded (lines 7-13; the [print] of line 13 runs
    then, not in a request), the process environment, and the
    constructor [Coze(auth=TokenAuth(token=...), base_url=COZE_CN_BASE_URL)]. *)
Record Env : Type := mkEnv {
  COZEPY_AVAILABLE : bool;
  getenv : string -> option string;
  Coze : string -> result CozeClient
}.

(** ** The program *)

Section App.

(** [str(v)] for a value that is not a [str]: [repr] for the builtin
    types, the [__str__] of the class for an instance.  It can raise: an
    [int] of more than 4300 digits gives [ValueError], a class can raise
    what it likes.  It is part of the Python runtime, not of the
    repository. *)
Variable str_other : pyval -> result string.

(** [str(type(v))], the class of a value as [print] shows it. *)
Variable type_str : pyval -> string.

(** [json.loads], from the standard library: the decoded document, or
    the [JSONDecodeError] (or [RecursionError], or [ValueError]) it
    raises. *)
Variable json_loads : string -> result pyval.

(** [print(text)]: nothing, or the exception of the console. *)
Variable print : string -> result unit.

(** [str(v)] *)
Definition str (v : pyval) : result string :=
  match v with
  | PStr s => Ok s
  | _ => str_other v
  end.

(** app2.py, lines 107-149.  The f-string interpolates the four text
    fields as they are and the materials joined by comma and space; the
    rest is literal. *)
Definition evaluate_mock (project_name project_description project_field
    student_level : string) (submission_materials : list pyval)
  : result string :=
  materials <- join ", " submission_materials ;;
  Ok ("
# 🎓 项目评价报告 (模拟数据)

## 项目信息
- **项目名称**: " ++ project_name ++ "
- **项目领域**: " ++ project_field ++ "
- **学生水平**: " ++ student_level ++ "
- **提交材料**: " ++ materials ++ "

## 项目描述
" ++ project_description ++ "

## 模拟评分结果
- **综合评分**: 8.2/10
- **创新性**: 7.5/10
- **技术难度**: 8.0/10
- **完成度**: 8.5/10
- **文档质量**: 7.0/10

## 项目优势
✅ 项目构思清晰，目标明确  
✅ 技术选型合理，符合当前技术趋势  
✅ 功能设计完整，用户体验考虑周到  

## 改进建议
📝 可以进一步优化项目文档结构  
📝 考虑添加更多创新功能点  
📝 建议完善测试用例  

## 学习收获
通过本项目，学生能够掌握**" ++ project_field ++ "**领域的基础知识和实践技能，提升问题解决能力和团队协作能力。

## 后续建议
1. 继续深入相关技术的学习
2. 参与更多实际项目积累经验
3. 关注行业最新发展趋势

---

*注：这是模拟评价，请配置Coze API Token和工作流ID后获取真实评价*
").

(** app2.py, lines 32-57: the body of the [try]. *)
Definition extract_body (response : pyval) : result string :=
  response_data <- match response with
                   | PStr s => json_loads s
                   | _ => Ok response
                   end ;;
  if hasattr response_data "data" then
    data <- getattr response_data "data" ;;
    match data with
    | PStr s => Ok s
    | _ => str data
    end
  else
    found <- contains "data" response_data ;;
    if found then
      data <- getitem response_data "data" ;;
      match data with
      | PStr s => Ok s
      | _ => str data
      end
    else str response_data.

(** The text printed on line 56. *)
Definition extraction_notice (e : exn) : string :=
  "文本提取错误: " ++ exn_str e.

(** app2.py, lines 55-57: the [except Exception] clause.  Nothing
    guards it: what [print] or [str] raise here leaves the function. *)
Definition extract_handler (e : exn) (response : pyval) : result string :=
  print (extraction_notice e) ;;
  str response.

(** app2.py, lines 32-57. *)
Definition extract_markdown_text (response : pyval) : result string :=
  try_except (extract_body response) (fun e => extract_handler e response).

(** The text printed on line 26. *)
Definition token_warning : string :=
  "警告: 未找到COZE_API_TOKEN环境变量，使用模拟模式".

(** app2.py, lines 19-29; [None] is [None]. *)
Definition get_coze_client (env : Env) : result (option CozeClient) :=
  if negb (COZEPY_AVAILABLE env) then Ok None
  else
    match getenv env "COZE_API_TOKEN" with
    | None =>
        print token_warning ;;
        Ok None
    | Some coze_api_token =>
        if negb (str_truthy coze_api_token) then
          print token_warning ;;
          Ok None
        else
          client <- Coze env coze_api_token ;;
          Ok (Some client)
    end.

(** app2.py, lines 88-89: the two lines printed for every event; the
    f-string of the second formats the event with [str]. *)
Definition log_event (event : pyval) : result unit :=
  print ("事件类型: " ++ type_str event) ;;
  shown <- str event ;;
  print ("事件内容: " ++ shown).

(** app2.py, lines 91-97: the extraction, from the text accumulated so
    far to the text after this event. *)
Definition collect_event (event : pyval) (output_text : string)
  : result string :=
  if hasattr event "message"
     && match getattr event "message" with
        | Ok message => hasattr message "content"
        | Raise _ => false
        end
  then
    message <- getattr event "message" ;;
    content <- getattr message "content" ;;
    piece <- add_str content nl ;;
    Ok (output_text ++ piece)
  else if hasattr event "content" then
    content <- getattr event "content" ;;
    piece <- add_str content nl ;;
    Ok (output_text ++ piece)
  else if hasattr event "output" then
    output <- getattr event "output" ;;
    shown <- str output ;;
    Ok (output_text ++ (shown ++ nl))
  else Ok output_text.

(** app2.py, lines 87-97: the body of the [for] loop. *)
Definition stream_step (event : pyval) (output_text : string) : result string :=
  log_event event ;;
  collect_event event output_text.

(** app2.py, lines 86-97: the [for] loop. *)
Fixpoint drain (events : event_stream) (output_text : string) : result string :=
  match events with
  | Exhausted => Ok output_text
  | Broken e => Raise e
  | Yield event rest =>
      output_text' <- stream_step event output_text ;;
      drain rest output_text'
  end.

(** app2.py, lines 70-76. *)
Definition parameters_of (project_name project_description project_field
    student_level : string) (submission_materials : list pyval) : pyval :=
  PDict [ ("project_name", PStr project_name);
          ("project_description", PStr project_description);
          ("project_field", PStr project_field);
          ("student_level", PStr student_level);
          ("submission_materials", PList submission_materials) ].

(** The first words of the error banner (app2.py, line 104). *)
Definition banner : string := "❌ Coze工作流错误：".

(** app2.py, lines 60-104.  The client is obtained and the workflow id
    read before the [try]; the test [not coze or not workflow_id] is the
    first two branches of the match and the test on the emptiness of the
    workflow id. *)
Definition evaluate_with_coze (env : Env) (project_name project_description
    project_field student_level : string) (submission_materials : list pyval)
  : result string :=
  coze <- get_coze_client env ;;
  let workflow_id := getenv env "WORKFLOW_ID" in
  match coze, workflow_id with
  | None, _ | _, None =>
      evaluate_mock project_name project_description project_field
        student_level submission_materials
  | Some coze, Some workflow_id =>
      if negb (str_truthy workflow_id) then
        evaluate_mock project_name project_description project_field
          student_level submission_materials
      else
        try_except
          (let parameters :=
             parameters_of project_name project_description project_field
               student_level submission_materials in
           response <- workflows_runs_stream coze workflow_id parameters ;;
           output_text <- drain (response_events response) EmptyString ;;
           markdown_text <-
             extract_markdown_text
               (if str_truthy output_text then PStr output_text
                else response_object response) ;;
           Ok markdown_text)
          (fun e =>
             mock <- evaluate_mock project_name project_description
                       project_field student_level submission_materials ;;
             Ok (banner ++ exn_str e ++ nl ++ nl ++ mock))
  end.

(** app2.py, lines 152-154. *)
Definition evaluate_project (env : Env) (project_name project_description
    project_field student_level : string) (submission_materials : list pyval)
  : result string :=
  evaluate_with_coze env project_name project_description project_field
    student_level submission_materials.

(** ** Requests, and the vocabulary of the properties *)

(** An evaluation request as the form delivers it: four texts and the
    list of the materials that were ticked. *)
Record EvaluationRequest : Type := mkRequest {
  req_name : string;
  req_description : string;
  req_field : string;
  req_level : string;
  req_materials : list string
}.

(** Calling one of the three five-argument functions on a request. *)
Definition on_request {A : Type}
    (f : string -> string -> string -> string -> list pyval -> A)
    (req : EvaluationRequest) : A :=
  f (req_name req) (req_description req) (req_field req) (req_level req)
    (map PStr (req_materials req)).

(** [x] occurs in [s]. *)
Definition occurs_in (x s : string) : Prop :=
  exists pre post, s = pre ++ x ++ post.

(** [s] with [x] cut off its front, when [s] starts with [x]. *)
Fixpoint strip_prefix (x s : string) : option string :=
  match x, s with
  | EmptyString, _ => Some s
  | String a x', String b s' =>
      if Ascii.eqb a b then strip_prefix x' s' else None
  | String _ _, EmptyString => None
  end.

(** The split of [s] around the first occurrence of [x]. *)
Fixpoint split_at (x s : string) : option (string * string) :=
  match strip_prefix x s with
  | Some post => Some (EmptyString, post)
  | None =>
      match s with
      | EmptyString => None
      | String c s' =>
          match split_at x s' with
          | Some (pre, post) => Some (String c pre, post)
          | None => None
          end
      end
  end.



(** A finite sequence of events, as a stream that ends normally. *)
Fixpoint stream_of (events : list pyval) : event_stream :=
  match events with
  | [] => Exhausted
  | event :: rest => Yield event (stream_of rest)
  end.




Definition is_text (v : pyval) : bool :=
  match v with
  | PStr _ => true
  | _ => false
  end.





(** The except clause of [evaluate_with_coze] (app2.py, lines 103-104),
    as a function of the exception and the five arguments. *)
Definition banner_report (e : exn) (n d f l : string) (ms : list pyval)
  : result string :=
  mock <- evaluate_mock n d f l ms ;;
  Ok (banner ++ exn_str e ++ nl ++ nl ++ mock).


(** The [data] field of a structured payload, in the words of the
    specification: by attribute first, then by key. *)
Definition data_field (payload : pyval) : option pyval :=
  match payload with
  | PObj _ attrs items =>
      match assoc "data" attrs with
      | Some d => Some d
      | None =>
          match items with
          | Some kvs => assoc "data" kvs
          | None => None
          end
      end
  | PDict kvs => assoc "data" kvs
  | _ => None
  end.

Definition token_set (env : Env) : bool :=
  match getenv env "COZE_API_TOKEN" with
  | Some t => str_truthy t
  | None => false
  end.

Definition workflow_set (env : Env) : bool :=
  match getenv env "WORKFLOW_ID" with
  | Some w => str_truthy w
  | None => false
  end.

(** ** The mode notice of the interface *)

(** app2.py, lines 162-168: the notice [create_interface] shows under
    the title, chosen when the interface is built. *)
Definition mode_notice (env : Env) : string :=
  if negb (COZEPY_AVAILABLE env) then
    "⚠️ **当前模式: 模拟演示** (cozepy未安装)"
  else if negb (token_set env) then
    "⚠️ **当前模式: 模拟演示** (未配置COZE_API_TOKEN)"
  else
    "✅ **当前模式: Coze工作流**".

(** The notice of the remote mode. *)
Definition workflow_notice : string := "✅ **当前模式: Coze工作流**".

(** ** More vocabulary *)

(** One stream after the other: the second is reached when the first is
    exhausted, and not when it breaks. *)
Fixpoint stream_app (first second : event_stream) : event_stream :=
  match first with
  | Exhausted => second
  | Yield event rest => Yield event (stream_app rest second)
  | Broken e => Broken e
  end.

(** The environment with another constructor of the client. *)
Definition with_constructor (env : Env) (ctor : string -> result CozeClient)
  : Env :=
  mkEnv (COZEPY_AVAILABLE env) (getenv env) ctor.

(** The environment with other process settings. *)
Definition with_getenv (env : Env) (settings : string -> option string) : Env :=
  mkEnv (COZEPY_AVAILABLE env) settings (Coze env).

(** The values of the types [NoneType], [bool], [int] and [float]. *)
Definition is_scalar (v : pyval) : bool :=
  match v with
  | PNone | PBool _ | PInt _ | PFloat _ => true
  | _ => false
  end.

(** [s] ends with [x]. *)
Definition ends_with (x s : string) : Prop := exists pre, s = pre ++ x.

(** ** A sample runtime, for the closed examples

    The properties below hold for every [str_other], [type_str],
    [json_loads] and [print].  The closed examples need one of each;
    these agree with Python on the values, documents and texts the
    examples use.  [sample_json_loads] decodes the documents built from
    objects, arrays, strings without escapes, integers and the three
    literals, and raises on any other text. *)

Definition ValueError (msg : string) : exn := mkExn "ValueError" msg.

(** The limit of [int] to [str] conversion: 4300 digits.  The power of
    ten lies between two powers of two, so the binary size settles all
    numbers but those of 14285 bits. *)
Definition within_digit_limit (z : Z) : bool :=
  let size := Z.log2 (Z.abs z) in
  Z.ltb size 14284 || (Z.eqb size 14284 && Z.ltb (Z.abs z) (10 ^ 4300)).

Definition digit_limit_error : exn :=
  ValueError
    "Exceeds the limit (4300 digits) for integer string conversion; use sys.set_int_max_str_digits() to increase the limit".

Fixpoint sample_repr (v : pyval) : result string :=
  match v with
  | PNone => Ok "None"
  | PBool true => Ok "True"
  | PBool false => Ok "False"
  | PInt z =>
      if within_digit_limit z then Ok (NilZero.string_of_int (Z.to_int z))
      else Raise digit_limit_error
  | PFloat _ => Ok "<float>"
  | PStr s => Ok ("'" ++ s ++ "'")
  | PList l =>
      shown <- (fix each (l : list pyval) : result (list string) :=
                  match l with
                  | [] => Ok []
                  | x :: rest =>
                      sx <- sample_repr x ;;
                      srest <- each rest ;;
                      Ok (sx :: srest)
                  end) l ;;
      Ok ("[" ++ String.concat ", " shown ++ "]")
  | PDict kvs =>
      shown <- (fix each (kvs : list (string * pyval)) : result (list string) :=
                  match kvs with
                  | [] => Ok []
                  | (k, x) :: rest =>
                      sx <- sample_repr x ;;
                      srest <- each rest ;;
                      Ok (("'" ++ k ++ "': " ++ sx) :: srest)
                  end) kvs ;;
      Ok ("{" ++ String.concat ", " shown ++ "}")
  | PObj cls _ _ => Ok ("<" ++ cls ++ " object>")
  end.

Definition sample_type_str (v : pyval) : string :=
  "<class '" ++ type_name v ++ "'>".

(** A console that takes every text. *)
Definition utf8_console (text : string) : result unit := Ok tt.

(** A console whose encoding is ASCII.  A text with a character beyond
    it is refused with the [UnicodeEncodeError] of the codec, which
    names the first run of such characters by their positions. *)
Fixpoint ascii_prefix_length (s : string) : nat :=
  match s with
  | String c rest =>
      if Nat.ltb (nat_of_ascii c) 128 then S (ascii_prefix_length rest) else 0
  | EmptyString => 0
  end.

Fixpoint drop (n : nat) (s : string) : string :=
  match n, s with
  | S n', String _ rest => drop n' rest
  | _, _ => s
  end.

(** The characters in the leading run of bytes beyond ASCII: one for
    every byte that starts a character. *)
Fixpoint run_characters (s : string) : nat :=
  match s with
  | String c rest =>
      if Nat.ltb (nat_of_ascii c) 128 then 0
      else (if Nat.leb 192 (nat_of_ascii c) then 1 else 0)
           + run_characters rest
  | EmptyString => 0
  end.

(** The code point that starts [s], from its UTF-8 bytes. *)
Fixpoint continuation (s : string) (acc : N) : N :=
  match s with
  | String c rest =>
      let b := N_of_ascii c in
      if N.leb 128 b && N.ltb b 192
      then continuation rest (acc * 64 + (b - 128))
      else acc
  | EmptyString => acc
  end.

Definition code_point (s : string) : N :=
  match s with
  | String c rest =>
      let b := N_of_ascii c in
      if N.ltb b 128 then b
      else if N.ltb b 224 then continuation rest (b - 192)
      else if N.ltb b 240 then continuation rest (b - 224)
      else continuation rest (b - 240)
  | EmptyString => 0
  end.

Definition hex_digit (n : N) : string :=
  String (ascii_of_N (if N.ltb n 10 then 48 + n else 87 + n)) EmptyString.

Fixpoint hex (digits : nat) (n : N) : string :=
  match digits with
  | O => EmptyString
  | S digits' => hex digits' (n / 16) ++ hex_digit (n mod 16)
  end.

(** The character as the codec error shows it. *)
Definition escaped (cp : N) : string :=
  String (ascii_of_nat 92) EmptyString
  ++ (if N.ltb cp 256 then "x" ++ hex 2 cp
      else if N.ltb cp 65536 then "u" ++ hex 4 cp
      else "U" ++ hex 8 cp).

Definition decimal (n : nat) : string := NilZero.string_of_uint (Nat.to_uint n).

Definition ascii_console (text : string) : result unit :=
  let first := ascii_prefix_length text in
  let tail := drop first text in
  match run_characters tail with
  | O => Ok tt
  | S O =>
      Raise (mkExn "UnicodeEncodeError"
               ("'ascii' codec can't encode character '"
                ++ escaped (code_point tail) ++ "' in position "
                ++ decimal first ++ ": ordinal not in range(128)"))
  | S more =>
      Raise (mkExn "UnicodeEncodeError"
               ("'ascii' codec can't encode characters in position "
                ++ decimal first ++ "-" ++ decimal (first + more)
                ++ ": ordinal not in range(128)"))
  end.

Definition JSONDecodeError (msg : string) : exn := mkExn "JSONDecodeError" msg.

Definition is_ws (c : ascii) : bool :=
  let n := nat_of_ascii c in
  Nat.eqb n 32 || Nat.eqb n 9 || Nat.eqb n 10 || Nat.eqb n 13.

Definition is_digit (c : ascii) : bool :=
  let n := nat_of_ascii c in
  Nat.leb 48 n && Nat.leb n 57.

Definition is_quote (c : ascii) : bool := Nat.eqb (nat_of_ascii c) 34.

Fixpoint skip_ws (s : string) : string :=
  match s with
  | String c r => if is_ws c then skip_ws r else s
  | EmptyString => s
  end.

(** The characters up to the closing quote, and what follows it; a
    backslash or a control character ends the fragment. *)
Fixpoint read_string (s : string) : option (string * string) :=
  match s with
  | EmptyString => None
  | String c r =>
      if is_quote c then Some (EmptyString, r)
      else if Nat.eqb (nat_of_ascii c) 92 || Nat.ltb (nat_of_ascii c) 32
      then None
      else match read_string r with
           | Some (t, r') => Some (String c t, r')
           | None => None
           end
  end.

Fixpoint read_digits (s : string) (acc : Z) : Z * string :=
  match s with
  | String c r =>
      if is_digit c
      then read_digits r (10 * acc + Z.of_nat (nat_of_ascii c - 48))
      else (acc, s)
  | EmptyString => (acc, s)
  end.

(** An integer without sign: a zero, or digits that do not start with
    one; a fraction or an exponent after it is outside the fragment. *)
Definition read_int (s : string) : option (Z * string) :=
  match s with
  | String c r =>
      if is_digit c then
        let (z, rest) :=
          if Nat.eqb (nat_of_ascii c) 48 then (0%Z, r) else read_digits s 0 in
        match rest with
        | String c' _ =>
            if Ascii.eqb c' "."%char || Ascii.eqb c' "e"%char
               || Ascii.eqb c' "E"%char
            then None else Some (z, rest)
        | EmptyString => Some (z, rest)
        end
      else None
  | EmptyString => None
  end.

(** A later binding of a key replaces the earlier one, in place. *)
Fixpoint dict_set (k : string) (v : pyval) (kvs : list (string * pyval))
  : list (string * pyval) :=
  match kvs with
  | [] => [(k, v)]
  | (k', v') :: rest =>
      if String.eqb k k' then (k', v) :: rest else (k', v') :: dict_set k v rest
  end.

Definition read_literal (s : string) : option (pyval * string) :=
  match strip_prefix "null" s with
  | Some r => Some (PNone, r)
  | None =>
      match strip_prefix "true" s with
      | Some r => Some (PBool true, r)
      | None =>
          match strip_prefix "false" s with
          | Some r => Some (PBool false, r)
          | None => None
          end
      end
  end.

Fixpoint read_value (fuel : nat) (s : string) : option (pyval * string) :=
  match fuel with
  | O => None
  | S fuel =>
      match skip_ws s with
      | EmptyString => None
      | String c r =>
          if Ascii.eqb c "{"%char then
            match skip_ws r with
            | String c' r' =>
                if Ascii.eqb c' "}"%char then Some (PDict [], r')
                else read_members fuel r []
            | EmptyString => None
            end
          else if Ascii.eqb c "["%char then
            match skip_ws r with
            | String c' r' =>
                if Ascii.eqb c' "]"%char then Some (PList [], r')
                else read_elements fuel r []
            | EmptyString => None
            end
          else if is_quote c then
            match read_string r with
            | Some (t, r') => Some (PStr t, r')
            | None => None
            end
          else if Ascii.eqb c "-"%char then
            match read_int r with
            | Some (z, r') => Some (PInt (- z), r')
            | None => None
            end
          else if is_digit c then
            match read_int (String c r) with
            | Some (z, r') => Some (PInt z, r')
            | None => None
            end
          else read_literal (String c r)
      end
  end

with read_members (fuel : nat) (s : string) (acc : list (string * pyval))
  : option (pyval * string) :=
  match fuel with
  | O => None
  | S fuel =>
      match skip_ws s with
      | String c r =>
          if is_quote c then
            match read_string r with
            | Some (k, r1) =>
                match skip_ws r1 with
                | String c1 r2 =>
                    if Ascii.eqb c1 ":"%char then
                      match read_value fuel r2 with
                      | Some (v, r3) =>
                          match skip_ws r3 with
                          | String c3 r4 =>
                              if Ascii.eqb c3 ","%char
                              then read_members fuel r4 (dict_set k v acc)
                              else if Ascii.eqb c3 "}"%char
                              then Some (PDict (dict_set k v acc), r4)
                              else None
                          | EmptyString => None
                          end
                      | None => None
                      end
                    else None
                | EmptyString => None
                end
            | None => None
            end
          else None
      | EmptyString => None
      end
  end

with read_elements (fuel : nat) (s : string) (acc : list pyval)
  : option (pyval * string) :=
  match fuel with
  | O => None
  | S fuel =>
      match read_value fuel s with
      | Some (v, r1) =>
          match skip_ws r1 with
          | String c r2 =>
              if Ascii.eqb c ","%char
              then read_elements fuel r2 (acc ++ [v])%list
              else if Ascii.eqb c "]"%char
              then Some (PList (acc ++ [v])%list, r2)
              else None
          | EmptyString => None
          end
      | None => None
      end
  end.

Definition sample_json_loads (s : string) : result pyval :=
  match read_value (2 * String.length s + 2) s with
  | Some (v, rest) =>
      match skip_ws rest with
      | EmptyString => Ok v
      | String _ _ => Raise (JSONDecodeError "Extra data")
      end
  | None => Raise (JSONDecodeError "Expecting value")
  end.

(** Stream events of the three kinds. *)
Definition content_event (text : string) : pyval :=
  PObj "Event" [("content", PStr text)] None.

Definition message_event (text : string) : pyval :=
  PObj "WorkflowEvent"
       [("event", PStr "Message");
        ("message", PObj "WorkflowEventMessage" [("content", PStr text)] None)]
       None.

Definition output_event (output : pyval) : pyval :=
  PObj "Event" [("output", output)] None.


Definition done_event : pyval :=
  PObj "WorkflowEvent" [("event", PStr "Done"); ("message", PNone)] None.

(** The drained stream object: no attribute [data]; a membership test
    iterates it and finds nothing. *)
Definition stream_object : pyval := PObj "Stream" [] (Some []).

(** A client whose [stream] answers the same to every call. *)
Definition sample_client (answer : result StreamResponse) : CozeClient :=
  mkClient (fun _ _ => answer).

Definition sample_getenv (token workflow_id : option string)
  : string -> option string :=
  fun name =>
    if String.eqb name "COZE_API_TOKEN" then token
    else if String.eqb name "WORKFLOW_ID" then workflow_id
    else None.

(** Both settings present, [cozepy] installed, the client answering
    [answer]. *)
Definition env_remote (answer : result StreamResponse) : Env :=
  mkEnv true (sample_getenv (Some "pat_token") (Some "7400000000"))
        (fun _ => Ok (sample_client answer)).

(** [cozepy] not installed. *)
Definition env_no_library : Env :=
  mkEnv false (sample_getenv (Some "pat_token") (Some "7400000000"))
        (fun _ => Raise (mkExn "NameError" "name 'Coze' is not defined")).

(** No token configured. *)
Definition env_no_token : Env :=
  mkEnv true (sample_getenv None (Some "7400000000"))
        (fun _ => Ok (sample_client (Raise (mkExn "CozeAPIError" "unauthorized")))).

(** Neither setting configured. *)
Definition env_no_credentials : Env :=
  mkEnv true (sample_getenv None None)
        (fun _ => Ok (sample_client (Raise (mkExn "CozeAPIError" "unauthorized")))).

(** No workflow id configured; the client is built all the same. *)
Definition env_no_workflow : Env :=
  mkEnv true (sample_getenv (Some "pat_token") None)
        (fun _ => Ok (sample_client (Raise (mkExn "CozeAPIError" "no workflow")))).

(** What the constructor raises when the installed [cozepy] does not
    take the keyword the program passes. *)
Definition incompatible_client : exn :=
  TypeError "Coze.__init__() got an unexpected keyword argument 'base_url'".

(** Both settings present, the constructor of the client raising. *)
Definition env_client_fails : Env :=
  mkEnv true (sample_getenv (Some "pat_token") (Some "7400000000"))
        (fun _ => Raise incompatible_client).

(** No workflow id configured, the constructor of the client raising. *)
Definition env_client_fails_no_workflow : Env :=
  mkEnv true (sample_getenv (Some "pat_token") None)
        (fun _ => Raise incompatible_client).

Definition sample_request : EvaluationRequest :=
  mkRequest "X" "demo" "技术开发" "本科" ["代码"; "文档"].


(** The text of the document whose only key is data, with value X. *)
Definition data_document : string :=
  "{" ++ dquote ++ "data" ++ dquote ++ ": " ++ dquote ++ "X" ++ dquote ++ "}".

(** A stream that ends normally after a message, an end marker and an
    output. *)
Definition answered : StreamResponse :=
  mkResponse stream_object
    (stream_of [message_event "# 评价"; done_event; output_event (PInt 9)]).


(** ** Properties *)

(** *** Strings *)

Lemma append_assoc (a b c : string) : (a ++ b) ++ c = a ++ b ++ c.
Proof.
  induction a as [|ch a IH]; simpl; [reflexivity | now rewrite IH].
Qed.

Lemma append_nil_r (a : string) : a ++ EmptyString = a.
Proof.
  induction a as [|ch a IH]; simpl; [reflexivity | now rewrite IH].
Qed.

Lemma strip_prefix_sound (x s post : string) :
  strip_prefix x s = Some post -> s = x ++ post.
Proof.
  revert s; induction x as [|a x IH]; intros s H; simpl in *.
  - now inversion H.
  - destruct s as [|b s]; [discriminate|].
    destruct (Ascii.eqb_spec a b) as [->|]; [|discriminate].
    now rewrite (IH _ H).
Qed.

Lemma split_at_sound (x s pre post : string) :
  split_at x s = Some (pre, post) -> s = pre ++ x ++ post.
Proof.
  revert pre; induction s as [|c s IH]; intros pre H.
  - simpl in H. destruct (strip_prefix x EmptyString) eqn:E; [|discriminate].
    inversion H; subst. simpl. now apply strip_prefix_sound.
  - simpl in H. destruct (strip_prefix x (String c s)) eqn:E.
    + inversion H; subst. simpl. now apply strip_prefix_sound.
    + destruct (split_at x s) as [[pre' post']|] eqn:E'; [|discriminate].
      inversion H; subst. simpl. f_equal. now apply IH.
Qed.

Lemma occurs_in_split (x s : string) (p : string * string) :
  split_at x s = Some p -> occurs_in x s.
Proof.
  destruct p as [pre post]; intros H; exists pre, post.
  now apply split_at_sound.
Qed.

Lemma occurs_in_middle (a x b : string) : occurs_in x (a ++ x ++ b).
Proof. now exists a, b. Qed.

Lemma occurs_in_last (a x : string) : occurs_in x (a ++ x).
Proof. exists a, EmptyString. now rewrite append_nil_r. Qed.

Lemma occurs_in_app_r (a s x : string) : occurs_in x s -> occurs_in x (a ++ s).
Proof.
  intros [pre [post ->]]. exists (a ++ pre), post. now rewrite append_assoc.
Qed.

Lemma occurs_in_app_l (s b x : string) : occurs_in x s -> occurs_in x (s ++ b).
Proof.
  intros [pre [post ->]]. exists pre, (post ++ b).
  now rewrite !append_assoc.
Qed.

(** A value between a label that ends the text before it and a closing
    text that starts the text after it. *)
Lemma occurs_in_labelled (l x r a b rest a' b' : string) :
  split_at l a = Some (a', EmptyString) ->
  strip_prefix r b = Some b' ->
  occurs_in (l ++ x ++ r) (a ++ x ++ b ++ rest).
Proof.
  intros Ha Hb. apply split_at_sound in Ha. apply strip_prefix_sound in Hb.
  rewrite append_nil_r in Ha. subst a b.
  exists a', (b' ++ rest). now rewrite !append_assoc.
Qed.



(** *** Results *)

Lemma Ok_inj {A : Type} (a b : A) : Ok a = Ok b -> a = b.
Proof. now intros [= ->]. Qed.

(** *** Joining *)

Lemma join_from_strs (i : nat) (l : list string) :
  join_from i (map PStr l) = Ok l.
Proof.
  revert i; induction l as [|s l IH]; intros i; simpl; [reflexivity|].
  now rewrite IH.
Qed.

Lemma join_strs (sep : string) (l : list string) :
  join sep (map PStr l) = Ok (String.concat sep l).
Proof. unfold join. now rewrite join_from_strs. Qed.

(** *** The canned report *)

(** Peels the report from the left until the text looked for is next. *)
Ltac find_occurrence :=
  first [ apply occurs_in_middle
        | apply occurs_in_last
        | solve [ eapply occurs_in_labelled; vm_compute; reflexivity ]
        | solve [ apply occurs_in_app_l; eapply occurs_in_split;
                  vm_compute; reflexivity ]
        | solve [ eapply occurs_in_split; vm_compute; reflexivity ]
        | apply occurs_in_app_r; find_occurrence ].

(** C8.  For every well-formed request (four texts and a list of
    strings) [evaluate_mock] does not raise; the report it returns
    contains the project name, the project field, the student level, the
    materials joined by comma and space, and the description, each
    exactly as given: the name, field, level and materials on their
    labelled lines, the description as the body of its section. *)
Theorem evaluate_mock_reports_fields (req : EvaluationRequest) :
  exists report,
    on_request evaluate_mock req = Ok report
    /\ occurs_in (req_name req) report
    /\ occurs_in (req_field req) report
    /\ occurs_in (req_level req) report
    /\ occurs_in (String.concat ", " (req_materials req)) report
    /\ occurs_in (req_description req) report
    /\ occurs_in ("- **项目名称**: " ++ req_name req ++ nl) report
    /\ occurs_in ("- **项目领域**: " ++ req_field req ++ nl) report
    /\ occurs_in ("- **学生水平**: " ++ req_level req ++ nl) report
    /\ occurs_in ("- **提交材料**: "
                  ++ String.concat ", " (req_materials req) ++ nl) report
    /\ occurs_in (("## 项目描述" ++ nl) ++ req_description req
                  ++ (nl ++ nl ++ "## 模拟评分结果")) report.
Proof.
  destruct req as [name description field level materials].
  unfold on_request, evaluate_mock; cbn [req_name req_description req_field
    req_level req_materials].
  rewrite join_strs; cbn [bind].
  eexists; split; [reflexivity|].
  repeat split; find_occurrence.
Qed.


(** C9.  [evaluate_mock] is deterministic.  Equal arguments give equal
    results; and the report is seven fixed texts, the same for every
    call, with the five values interpolated between them (the project
    field twice).  The five scores are part of the fixed text: they
    stand in every report. *)
Theorem evaluate_mock_deterministic :
  (forall n d f l ms n' d' f' l' ms',
      n = n' -> d = d' -> f = f' -> l = l' -> ms = ms' ->
      evaluate_mock n d f l ms = evaluate_mock n' d' f' l' ms')
  /\ (exists p0 p1 p2 p3 p4 p5 p6 : string,
         forall n d f l ms,
           evaluate_mock n d f l ms =
           (m <- join ", " ms ;;
            Ok (p0 ++ n ++ p1 ++ f ++ p2 ++ l ++ p3 ++ m ++ p4 ++ d ++ p5
                ++ f ++ p6)))
  /\ (forall n d f l ms report,
         evaluate_mock n d f l ms = Ok report ->
         occurs_in "- **综合评分**: 8.2/10" report
         /\ occurs_in "- **创新性**: 7.5/10" report
         /\ occurs_in "- **技术难度**: 8.0/10" report
         /\ occurs_in "- **完成度**: 8.5/10" report
         /\ occurs_in "- **文档质量**: 7.0/10" report).
Proof.
  split; [|split].
  - intros; subst; reflexivity.
  - do 7 eexists; intros; unfold evaluate_mock; reflexivity.
  - intros n d f l ms report H. unfold evaluate_mock in H.
    destruct (join ", " ms) as [m|e]; cbn [bind] in H; [|discriminate].
    apply Ok_inj in H; subst report.
    repeat split; find_occurrence.
Qed.

(** C10.  With no materials ticked [evaluate_mock] still returns the
    whole report: the join of the empty list is the empty string, and
    the result is the template with the four texts in their places and
    nothing in the place of the materials, so that the materials line
    ends right after its label. *)
Theorem evaluate_mock_no_materials (n d f l : string) :
  join ", " [] = Ok EmptyString
  /\ evaluate_mock n d f l [] = Ok ("
# 🎓 项目评价报告 (模拟数据)

## 项目信息
- **项目名称**: " ++ n ++ "
- **项目领域**: " ++ f ++ "
- **学生水平**: " ++ l ++ "
- **提交材料**: " ++ EmptyString ++ "

## 项目描述
" ++ d ++ "

## 模拟评分结果
- **综合评分**: 8.2/10
- **创新性**: 7.5/10
- **技术难度**: 8.0/10
- **完成度**: 8.5/10
- **文档质量**: 7.0/10

## 项目优势
✅ 项目构思清晰，目标明确  
✅ 技术选型合理，符合当前技术趋势  
✅ 功能设计完整，用户体验考虑周到  

## 改进建议
📝 可以进一步优化项目文档结构  
📝 考虑添加更多创新功能点  
📝 建议完善测试用例  

## 学习收获
通过本项目，学生能够掌握**" ++ f ++ "**领域的基础知识和实践技能，提升问题解决能力和团队协作能力。

## 后续建议
1. 继续深入相关技术的学习
2. 参与更多实际项目积累经验
3. 关注行业最新发展趋势

---

*注：这是模拟评价，请配置Coze API Token和工作流ID后获取真实评价*
")
  /\ exists report,
       evaluate_mock n d f l [] = Ok report
       /\ occurs_in (nl ++ "- **提交材料**: " ++ nl ++ nl ++ "## 项目描述" ++ nl)
                    report
       /\ occurs_in ("- **项目名称**: " ++ n ++ nl) report
       /\ occurs_in ("- **项目领域**: " ++ f ++ nl) report
       /\ occurs_in ("- **学生水平**: " ++ l ++ nl) report
       /\ occurs_in (("## 项目描述" ++ nl) ++ d
                     ++ (nl ++ nl ++ "## 模拟评分结果")) report
       /\ occurs_in "*注：这是模拟评价，请配置Coze API Token和工作流ID后获取真实评价*"
                    report.
Proof.
  split; [reflexivity|]. split; [reflexivity|].
  unfold evaluate_mock; cbn [join join_from bind String.concat].
  eexists; split; [reflexivity|].
  repeat split; find_occurrence.
Qed.

(** *** Extraction *)

Lemma str_of_data (data : pyval) :
  match data with
  | PStr s => Ok s
  | _ => str data
  end = str data.
Proof. destruct data; reflexivity. Qed.

(** The lookup of the source finds what [data_field] describes: the
    case analysis on a decoded payload [payload] with [H] its field. *)
Ltac data_lookup payload H :=
  destruct payload as [| | | | |?l|?kvs|?cls ?attrs ?items];
  try discriminate H;
  cbn [data_field] in H;
  cbn [hasattr getattr contains getitem bind]; unfold has_key;
  [ (* a dict *) now rewrite H
  | (* an instance *)
    let d := fresh "d" in
    destruct (assoc "data" attrs) as [d|];
    [ injection H as ->; reflexivity
    | destruct items as [?kvs|]; [|discriminate H];
      cbn [contains getitem bind]; unfold has_key; now rewrite H ] ].

Lemma extract_body_structured (payload : pyval) (X : string) :
  is_text payload = false ->
  data_field payload = Some (PStr X) ->
  extract_body payload = Ok X.
Proof.
  intros Htext H. unfold extract_body.
  data_lookup payload H.
Qed.

Lemma extract_body_parsed (s : string) (payload : pyval) (X : string) :
  json_loads s = Ok payload ->
  data_field payload = Some (PStr X) ->
  extract_body (PStr s) = Ok X.
Proof.
  intros Hload H. unfold extract_body. rewrite Hload. cbn [bind].
  data_lookup payload H.
Qed.

(** C5.  A structured payload whose [data] field, looked up by
    attribute first and then by key, holds the string [X] is extracted
    to [X] itself: when the payload is handed over structured, and when
    it is the text of a document that [json.loads] decodes to such a
    payload.  The dict with the single key [data] is the instance of the
    specification; an instance that has [data] both as attribute and as
    key yields the attribute. *)
Theorem extract_markdown_text_data :
  (forall payload X,
      is_text payload = false ->
      data_field payload = Some (PStr X) ->
      extract_markdown_text payload = Ok X)
  /\ (forall s payload X,
         json_loads s = Ok payload ->
         data_field payload = Some (PStr X) ->
         extract_markdown_text (PStr s) = Ok X)
  /\ (forall X, extract_markdown_text (PDict [("data", PStr X)]) = Ok X)
  /\ (forall cls X other,
         extract_markdown_text
           (PObj cls [("data", PStr X)] (Some [("data", other)])) = Ok X).
Proof.
  split; [|split; [|split]].
  - intros payload X Htext Hdata.
    unfold extract_markdown_text.
    now rewrite (extract_body_structured payload X Htext Hdata).
  - intros s payload X Hload Hdata.
    unfold extract_markdown_text.
    now rewrite (extract_body_parsed s payload X Hload Hdata).
  - intros; reflexivity.
  - intros; reflexivity.
Qed.

Lemma extract_body_rejected (s : string) (e : exn) :
  json_loads s = Raise e -> extract_body (PStr s) = Raise e.
Proof. intros H. unfold extract_body. now rewrite H. Qed.

(** C6, as the code has it.  Every exception raised in the body of the
    [try] is caught: the handler prints a notice and returns [str] of
    the payload as it was handed over, so a string that [json.loads]
    rejects comes back unchanged once the notice is printed, the word
    hello among them.  The handler itself is not guarded: the function
    raises exactly when, after a raise in the body, the [print] or the
    [str] of the handler raises. *)
Theorem extract_markdown_text_guard :
  (forall response e,
      extract_body response = Raise e ->
      extract_markdown_text response = extract_handler e response)
  /\ (forall s e,
         json_loads s = Raise e ->
         extract_markdown_text (PStr s)
         = (print (extraction_notice e) ;; Ok s))
  /\ (forall s e,
         json_loads s = Raise e ->
         print (extraction_notice e) = Ok tt ->
         extract_markdown_text (PStr s) = Ok s)
  /\ (forall e,
         json_loads "hello" = Raise e ->
         print (extraction_notice e) = Ok tt ->
         extract_markdown_text (PStr "hello") = Ok "hello")
  /\ (forall response e',
         extract_markdown_text response = Raise e' ->
         exists e,
           extract_body response = Raise e
           /\ (print (extraction_notice e) = Raise e'
               \/ str response = Raise e')).
Proof.
  assert (Hrej : forall s e,
             json_loads s = Raise e ->
             extract_markdown_text (PStr s)
             = (print (extraction_notice e) ;; Ok s)).
  { intros s e H. unfold extract_markdown_text.
    now rewrite (extract_body_rejected s e H). }
  split; [|split; [|split; [|split]]].
  - intros response e H. unfold extract_markdown_text. now rewrite H.
  - exact Hrej.
  - intros s e H Hp. rewrite (Hrej s e H), Hp. reflexivity.
  - intros e H Hp. rewrite (Hrej _ e H), Hp. reflexivity.
  - intros response e'. unfold extract_markdown_text, try_except.
    destruct (extract_body response) as [text|e]; [discriminate|].
    intros H. exists e. split; [reflexivity|].
    unfold extract_handler in H.
    destruct (print (extraction_notice e)) as [u|e0]; cbn [bind] in H.
    + now right.
    + left. injection H as ->. reflexivity.
Qed.

(** *** Aggregation of the stream *)






(** *** The dispatcher *)

Lemma evaluate_mock_ok (n d f l : string) (ms : list string) :
  exists report, evaluate_mock n d f l (map PStr ms) = Ok report.
Proof.
  unfold evaluate_mock. rewrite join_strs. cbn [bind]. eauto.
Qed.

(** The mock report opens with a line break, not with the banner. *)
Lemma evaluate_mock_no_banner (n d f l : string) (ms : list pyval)
    (report : string) :
  evaluate_mock n d f l ms = Ok report -> String.prefix banner report = false.
Proof.
  unfold evaluate_mock. destruct (join ", " ms); cbn [bind]; [|discriminate].
  intros H; apply Ok_inj in H; subst report. reflexivity.
Qed.

(** The guarded region, once client and workflow id are there. *)
Lemma evaluate_with_coze_remote (env : Env) (n d f l : string)
    (ms : list pyval) (coze : CozeClient) (w : string) :
  get_coze_client env = Ok (Some coze) ->
  getenv env "WORKFLOW_ID" = Some w ->
  str_truthy w = true ->
  evaluate_with_coze env n d f l ms
  = try_except
      (response <- workflows_runs_stream coze w (parameters_of n d f l ms) ;;
       output_text <- drain (response_events response) EmptyString ;;
       markdown_text <-
         extract_markdown_text
           (if str_truthy output_text then PStr output_text
            else response_object response) ;;
       Ok markdown_text)
      (fun e =>
         mock <- evaluate_mock n d f l ms ;;
         Ok (banner ++ exn_str e ++ nl ++ nl ++ mock)).
Proof.
  intros Hc Hw Ht. unfold evaluate_with_coze.
  rewrite Hc; cbn [bind]. rewrite Hw, Ht. reflexivity.
Qed.

(** The same, once the stream is drained. *)
Lemma evaluate_with_coze_drained (env : Env) (n d f l : string)
    (ms : list pyval) (coze : CozeClient) (w : string)
    (response : StreamResponse) (output_text : string) :
  get_coze_client env = Ok (Some coze) ->
  getenv env "WORKFLOW_ID" = Some w ->
  str_truthy w = true ->
  workflows_runs_stream coze w (parameters_of n d f l ms) = Ok response ->
  drain (response_events response) EmptyString = Ok output_text ->
  evaluate_with_coze env n d f l ms
  = try_except
      (extract_markdown_text
         (if str_truthy output_text then PStr output_text
          else response_object response))
      (fun e => banner_report e n d f l ms).
Proof.
  intros Hc Hw Ht Hs Hd.
  rewrite (evaluate_with_coze_remote env n d f l ms coze w Hc Hw Ht).
  rewrite Hs; cbn [bind]. rewrite Hd; cbn [bind].
  destruct (extract_markdown_text _); reflexivity.
Qed.

(** C7, as the code has it.  In the remote path, once the stream is
    drained, the accumulated text when there is some, and the response
    object when there is none, is handed to [extract_markdown_text];
    what that returns is the result.  When it raises, the exception is
    caught on line 103 and the result is the banner with the report of
    [evaluate_mock]. *)
Theorem remote_result_is_extraction (env : Env) (n d f l : string)
    (ms : list pyval) (coze : CozeClient) (w : string)
    (response : StreamResponse) (output_text : string) :
  get_coze_client env = Ok (Some coze) ->
  getenv env "WORKFLOW_ID" = Some w ->
  str_truthy w = true ->
  workflows_runs_stream coze w (parameters_of n d f l ms) = Ok response ->
  drain (response_events response) EmptyString = Ok output_text ->
  (output_text <> EmptyString ->
   forall text,
     extract_markdown_text (PStr output_text) = Ok text ->
     evaluate_with_coze env n d f l ms = Ok text)
  /\ (output_text = EmptyString ->
      forall text,
        extract_markdown_text (response_object response) = Ok text ->
        evaluate_with_coze env n d f l ms = Ok text)
  /\ (forall e,
         extract_markdown_text
           (if str_truthy output_text then PStr output_text
            else response_object response)
         = Raise e ->
         evaluate_with_coze env n d f l ms = banner_report e n d f l ms).
Proof.
  intros Hc Hw Ht Hs Hd.
  rewrite (evaluate_with_coze_drained env n d f l ms coze w response
             output_text Hc Hw Ht Hs Hd).
  split; [|split].
  - intros Ho text H. destruct output_text; [contradiction|].
    cbn [str_truthy]. now rewrite H.
  - intros -> text H. cbn [str_truthy]. now rewrite H.
  - intros e H. now rewrite H.
Qed.


(** C1, as the code has it.  The only error that leaves
    [evaluate_project] is one raised while the client is obtained
    ([get_coze_client] is called before the [try]): it is passed on
    unchanged.  Once the client is obtained, or found to be unavailable,
    the result is a string whatever the streaming call, the stream and
    the extraction do. *)
Theorem evaluate_project_raises_only_from_client (env : Env)
    (req : EvaluationRequest) :
  match get_coze_client env with
  | Raise e => on_request (evaluate_project env) req = Raise e
  | Ok _ => exists text, on_request (evaluate_project env) req = Ok text
  end.
Proof.
  unfold on_request, evaluate_project.
  destruct (evaluate_mock_ok (req_name req) (req_description req)
              (req_field req) (req_level req) (req_materials req))
    as [mock Hmock].
  destruct (get_coze_client env) as [[coze|]|e] eqn:Hc.
  - destruct (getenv env "WORKFLOW_ID") as [w|] eqn:Hw.
    + destruct (str_truthy w) eqn:Ht.
      * rewrite (evaluate_with_coze_remote env _ _ _ _ _ coze w Hc Hw Ht).
        unfold try_except.
        match goal with
        | |- exists text, match ?body with _ => _ end = _ =>
            destruct body as [text|e]
        end.
        -- eauto.
        -- rewrite Hmock; cbn [bind]. eauto.
      * unfold evaluate_with_coze. rewrite Hc; cbn [bind]. rewrite Hw, Ht.
        cbn [negb]. eauto.
    + unfold evaluate_with_coze. rewrite Hc; cbn [bind]. rewrite Hw. eauto.
  - unfold evaluate_with_coze. rewrite Hc; cbn [bind]. eauto.
  - unfold evaluate_with_coze. rewrite Hc. reflexivity.
Qed.

(** C2, as the code has it.  When [cozepy] is not installed, or the
    token is absent or empty and the warning of line 26 is printed, or
    the workflow id is absent or empty and obtaining the client did not
    raise, [evaluate_project] returns exactly what [evaluate_mock]
    returns for the same request; that report does not start with the
    banner. *)
Theorem mock_mode (env : Env) (req : EvaluationRequest) :
  COZEPY_AVAILABLE env = false
  \/ (token_set env = false /\ print token_warning = Ok tt)
  \/ (workflow_set env = false /\ exists coze, get_coze_client env = Ok coze) ->
  on_request (evaluate_project env) req = on_request evaluate_mock req
  /\ exists report,
       on_request evaluate_mock req = Ok report
       /\ String.prefix banner report = false.
Proof.
  intros H. unfold on_request.
  destruct (evaluate_mock_ok (req_name req) (req_description req)
              (req_field req) (req_level req) (req_materials req))
    as [mock Hmock].
  split.
  - unfold evaluate_project, evaluate_with_coze.
    destruct H as [Hlib | [[Htok Hprint] | [Hwf [coze Hc]]]].
    + unfold get_coze_client. rewrite Hlib. reflexivity.
    + unfold get_coze_client, token_set in *.
      destruct (COZEPY_AVAILABLE env); cbn [negb]; [|reflexivity].
      destruct (getenv env "COZE_API_TOKEN") as [t|].
      * rewrite Htok; cbn [negb]. rewrite Hprint. reflexivity.
      * rewrite Hprint. reflexivity.
    + rewrite Hc; cbn [bind]. unfold workflow_set in Hwf.
      destruct coze as [coze|]; [|reflexivity].
      destruct (getenv env "WORKFLOW_ID") as [w|]; [|reflexivity].
      rewrite Hwf. reflexivity.
  - exists mock. split; [exact Hmock|].
    exact (evaluate_mock_no_banner _ _ _ _ _ _ Hmock).
Qed.

(** *** What the typing conditions exclude *)

(** A material that is not a string makes the join, and with it
    [evaluate_mock], raise. *)
Remark evaluate_mock_rejects_non_string (n d f l : string) :
  evaluate_mock n d f l [PStr "代码"; PInt 1]
  = Raise (TypeError "sequence item 1: expected str instance, int found").
Proof. reflexivity. Qed.

(** A content field that holds no text makes the extraction of the loop
    body raise; in [evaluate_with_coze] the guarded region turns that
    into the banner. *)
Remark collect_event_rejects_non_text (output_text : string) :
  collect_event (PObj "Event" [("content", PNone)] None) output_text
  = Raise (TypeError "unsupported operand type(s) for +: 'NoneType' and 'str'").
Proof. reflexivity. Qed.

(** ** Further properties of the code *)

(** *** Obtaining the client *)

(** X2.  In the two degraded modes the constructor of the client is not
    consulted: with [cozepy] not installed, or the token absent or
    empty, [evaluate_project] gives the same result whatever the
    constructor would do. *)
Theorem degraded_mode_ignores_constructor (env : Env)
    (ctor : string -> result CozeClient) (n d f l : string)
    (ms : list pyval) :
  COZEPY_AVAILABLE env = false \/ token_set env = false ->
  evaluate_project (with_constructor env ctor) n d f l ms
  = evaluate_project env n d f l ms.
Proof.
  intros H. unfold evaluate_project, evaluate_with_coze, get_coze_client,
    with_constructor, token_set in *.
  cbn [COZEPY_AVAILABLE getenv Coze].
  destruct (COZEPY_AVAILABLE env); cbn [negb]; [|reflexivity].
  destruct H as [H|H]; [discriminate H|].
  destruct (getenv env "COZE_API_TOKEN") as [t|]; [|reflexivity].
  rewrite H. reflexivity.
Qed.

(** X3.  The client is used for one call only: the result depends on it
    only through what [stream] answers for the configured workflow id
    and the parameters built from the five fields.  Two clients that
    answer alike there give the same result. *)
Theorem client_consulted_at_one_call (env : Env) (c c' : CozeClient)
    (n d f l : string) (ms : list pyval) :
  (forall w,
      getenv env "WORKFLOW_ID" = Some w ->
      workflows_runs_stream c w (parameters_of n d f l ms)
      = workflows_runs_stream c' w (parameters_of n d f l ms)) ->
  evaluate_project (with_constructor env (fun _ => Ok c)) n d f l ms
  = evaluate_project (with_constructor env (fun _ => Ok c')) n d f l ms.
Proof.
  intros H. unfold evaluate_project, evaluate_with_coze, get_coze_client,
    with_constructor.
  cbn [COZEPY_AVAILABLE getenv Coze].
  destruct (COZEPY_AVAILABLE env); cbn [negb bind]; [|reflexivity].
  destruct (getenv env "COZE_API_TOKEN") as [t|]; cbn [bind]; [|reflexivity].
  destruct (str_truthy t); cbn [negb bind]; [|reflexivity].
  destruct (getenv env "WORKFLOW_ID") as [w|]; [|reflexivity].
  destruct (str_truthy w); cbn [negb]; [|reflexivity].
  now rewrite (H w eq_refl).
Qed.

(** X4.  Of the process settings only [COZE_API_TOKEN] and
    [WORKFLOW_ID] are read: two environments that agree on these two
    give the same result. *)
Theorem only_two_settings_read (env : Env)
    (settings : string -> option string) (n d f l : string)
    (ms : list pyval) :
  settings "COZE_API_TOKEN" = getenv env "COZE_API_TOKEN" ->
  settings "WORKFLOW_ID" = getenv env "WORKFLOW_ID" ->
  evaluate_project (with_getenv env settings) n d f l ms
  = evaluate_project env n d f l ms.
Proof.
  intros Ht Hw. unfold evaluate_project, evaluate_with_coze, get_coze_client,
    with_getenv.
  cbn [COZEPY_AVAILABLE getenv Coze]. now rewrite Ht, Hw.
Qed.

(** *** The mode notice *)

(** X5.  When the notice of the interface announces one of the two
    demonstration modes, the constructor is not reached and
    [evaluate_project] answers with [evaluate_mock]: at once when
    [cozepy] is not installed, and after the warning of line 26 when the
    token is missing, so that an exception of that [print] leaves
    [evaluate_project].  When the notice announces the remote mode,
    [get_coze_client] answers what the constructor gives for the
    configured token. *)
Theorem mode_notice_demo (env : Env) :
  (mode_notice env <> workflow_notice ->
   forall n d f l ms,
     evaluate_project env n d f l ms
     = if COZEPY_AVAILABLE env
       then print token_warning ;; evaluate_mock n d f l ms
       else evaluate_mock n d f l ms)
  /\ (mode_notice env = workflow_notice ->
      exists token,
        getenv env "COZE_API_TOKEN" = Some token
        /\ get_coze_client env
           = (client <- Coze env token ;; Ok (Some client))).
Proof.
  unfold mode_notice, evaluate_project, evaluate_with_coze, get_coze_client,
    token_set.
  destruct (COZEPY_AVAILABLE env); cbn [negb].
  - destruct (getenv env "COZE_API_TOKEN") as [t|].
    + destruct (str_truthy t); cbn [negb].
      * split; [intros H; now contradiction H | eauto].
      * split; [|intros H; vm_compute in H; discriminate H].
        intros _ n d f l ms.
        destruct (print token_warning); reflexivity.
    + split; [|intros H; vm_compute in H; discriminate H].
      intros _ n d f l ms.
      destruct (print token_warning); reflexivity.
  - split; [reflexivity | intros H; vm_compute in H; discriminate H].
Qed.

(** X6.  The notice does not look at the workflow id: with [cozepy]
    installed, a token configured and the client built, but the workflow
    id absent or empty, the interface announces the remote mode and
    every request is still answered by [evaluate_mock]. *)
Theorem mode_notice_remote_yet_mock (env : Env) (coze : CozeClient) :
  get_coze_client env = Ok (Some coze) ->
  workflow_set env = false ->
  mode_notice env = workflow_notice
  /\ forall n d f l ms,
       evaluate_project env n d f l ms = evaluate_mock n d f l ms.
Proof.
  intros Hc Hw. split.
  - unfold mode_notice, get_coze_client, token_set in *.
    destruct (COZEPY_AVAILABLE env); cbn [negb] in *; [|discriminate Hc].
    destruct (getenv env "COZE_API_TOKEN") as [t|].
    + destruct (str_truthy t); cbn [negb] in *; [reflexivity|].
      destruct (print token_warning); discriminate Hc.
    + destruct (print token_warning); discriminate Hc.
  - intros n d f l ms. unfold evaluate_project, evaluate_with_coze.
    rewrite Hc; cbn [bind]. unfold workflow_set in Hw.
    destruct (getenv env "WORKFLOW_ID") as [w|]; [|reflexivity].
    now rewrite Hw.
Qed.

(** *** The loop over the stream *)

Lemma collect_event_from_empty (event : pyval) (output_text : string) :
  collect_event event output_text
  = (piece <- collect_event event EmptyString ;; Ok (output_text ++ piece)).
Proof.
  unfold collect_event.
  destruct (hasattr event "message"
            && match getattr event "message" with
               | Ok message => hasattr message "content"
               | Raise _ => false
               end).
  - destruct (getattr event "message") as [message|]; cbn [bind];
      [|reflexivity].
    destruct (getattr message "content") as [content|]; cbn [bind];
      [|reflexivity].
    destruct (add_str content nl); reflexivity.
  - destruct (hasattr event "content").
    + destruct (getattr event "content") as [content|]; cbn [bind];
        [|reflexivity].
      destruct (add_str content nl); reflexivity.
    + destruct (hasattr event "output").
      * destruct (getattr event "output") as [output|]; cbn [bind];
          [|reflexivity].
        destruct (str output); reflexivity.
      * cbn [bind]. now rewrite append_nil_r.
Qed.

Lemma stream_step_from_empty (event : pyval) (output_text : string) :
  stream_step event output_text
  = (piece <- stream_step event EmptyString ;; Ok (output_text ++ piece)).
Proof.
  unfold stream_step.
  destruct (log_event event); cbn [bind]; [|reflexivity].
  apply collect_event_from_empty.
Qed.

Lemma drain_from_empty (events : event_stream) (output_text : string) :
  drain events output_text
  = (text <- drain events EmptyString ;; Ok (output_text ++ text)).
Proof.
  revert output_text; induction events as [|event rest IH|e];
    intros output_text; cbn [drain bind].
  - now rewrite append_nil_r.
  - rewrite (stream_step_from_empty event output_text).
    destruct (stream_step event EmptyString) as [piece|e]; cbn [bind];
      [|reflexivity].
    change (EmptyString ++ piece) with piece.
    rewrite (IH (output_text ++ piece)), (IH piece).
    destruct (drain rest EmptyString) as [text|e]; cbn [bind];
      [|reflexivity].
    now rewrite append_assoc.
  - reflexivity.
Qed.

(** X7.  What the loop adds does not depend on what was accumulated
    before: draining a stream from any text gives that text followed by
    what draining from the empty text gives, and raises exactly when
    draining from the empty text raises, with the same exception. *)
Theorem drain_extends_accumulator (events : event_stream)
    (output_text : string) :
  drain events output_text
  = match drain events EmptyString with
    | Ok text => Ok (output_text ++ text)
    | Raise e => Raise e
    end.
Proof.
  rewrite (drain_from_empty events output_text).
  destruct (drain events EmptyString); reflexivity.
Qed.

Lemma drain_stream_app (first second : event_stream) (output_text : string) :
  drain (stream_app first second) output_text
  = (text <- drain first output_text ;; drain second text).
Proof.
  revert output_text; induction first as [|event rest IH|e];
    intros output_text; cbn [stream_app drain bind]; try reflexivity.
  destruct (stream_step event output_text); cbn [bind];
    [apply IH | reflexivity].
Qed.

(** X8.  Draining one stream after another is draining the first and
    then the second from what the first left; when the first raises, the
    second is not touched. *)
Theorem drain_in_sequence (first second : event_stream)
    (output_text : string) :
  drain (stream_app first second) output_text
  = match drain first output_text with
    | Ok text => drain second text
    | Raise e => Raise e
    end.
Proof.
  rewrite drain_stream_app.
  destruct (drain first output_text); reflexivity.
Qed.

Lemma add_str_ok (v : pyval) (s piece : string) :
  add_str v s = Ok piece -> exists t, v = PStr t /\ piece = t ++ s.
Proof.
  destruct v; cbn; intros H; try discriminate H.
  apply Ok_inj in H. eauto.
Qed.

Lemma collect_event_adds_line (event : pyval) (output_text text : string) :
  collect_event event output_text = Ok text ->
  text = output_text \/ exists line, text = output_text ++ line ++ nl.
Proof.
  unfold collect_event.
  destruct (hasattr event "message"
            && match getattr event "message" with
               | Ok message => hasattr message "content"
               | Raise _ => false
               end).
  - destruct (getattr event "message") as [message|]; cbn [bind];
      [|discriminate].
    destruct (getattr message "content") as [content|]; cbn [bind];
      [|discriminate].
    destruct (add_str content nl) as [piece|] eqn:Hadd; cbn [bind];
      [|discriminate].
    intros H; apply Ok_inj in H; subst text.
    apply add_str_ok in Hadd as [t [_ ->]]. right; eauto.
  - destruct (hasattr event "content").
    + destruct (getattr event "content") as [content|]; cbn [bind];
        [|discriminate].
      destruct (add_str content nl) as [piece|] eqn:Hadd; cbn [bind];
        [|discriminate].
      intros H; apply Ok_inj in H; subst text.
      apply add_str_ok in Hadd as [t [_ ->]]. right; eauto.
    + destruct (hasattr event "output").
      * destruct (getattr event "output") as [output|]; cbn [bind];
          [|discriminate].
        destruct (str output) as [shown|]; cbn [bind]; [|discriminate].
        intros H; apply Ok_inj in H; subst text. right; eauto.
      * intros H; apply Ok_inj in H; subst text. now left.
Qed.

Lemma stream_step_adds_line (event : pyval) (output_text text : string) :
  stream_step event output_text = Ok text ->
  text = output_text \/ exists line, text = output_text ++ line ++ nl.
Proof.
  unfold stream_step.
  destruct (log_event event); cbn [bind]; [|discriminate].
  apply collect_event_adds_line.
Qed.

(** X9.  The loop only ever appends whole lines: what a drained stream
    leaves is the text it started from, either unchanged or followed by
    text that ends in a line break. *)
Theorem drain_appends_lines (events : event_stream)
    (output_text text : string) :
  drain events output_text = Ok text ->
  text = output_text \/ exists lines, text = output_text ++ lines ++ nl.
Proof.
  revert output_text; induction events as [|event rest IH|e];
    intros output_text; cbn [drain bind].
  - intros H; apply Ok_inj in H. now left.
  - destruct (stream_step event output_text) as [mid|] eqn:Hstep;
      cbn [bind]; [|discriminate].
    intros Hrest. apply IH in Hrest.
    apply stream_step_adds_line in Hstep.
    destruct Hstep as [->|[line ->]]; [exact Hrest|].
    destruct Hrest as [->|[lines ->]]; right.
    + eauto.
    + exists (line ++ nl ++ lines). now rewrite !append_assoc.
  - discriminate.
Qed.

(** X10.  The first failure ends the loop.  After a stretch of the
    stream that is drained normally, an event on which the loop body
    raises makes the whole loop raise that exception, whatever was
    accumulated and whatever the stream would have yielded next; so does
    a break of the stream itself. *)
Theorem drain_first_failure (before : event_stream) (event : pyval)
    (rest : event_stream) (output_text text : string) (e : exn) :
  drain before EmptyString = Ok text ->
  (stream_step event EmptyString = Raise e ->
   drain (stream_app before (Yield event rest)) output_text = Raise e)
  /\ drain (stream_app before (Broken e)) output_text = Raise e.
Proof.
  intros Hb. split; [intros Hstep|]; rewrite drain_stream_app;
    rewrite (drain_from_empty before output_text), Hb; cbn [bind drain].
  - rewrite stream_step_from_empty, Hstep. reflexivity.
  - reflexivity.
Qed.

(** *** Extraction, case by case *)

Lemma extract_body_data (payload data : pyval) :
  is_text payload = false ->
  data_field payload = Some data ->
  extract_body payload = str data.
Proof.
  intros Htext H. unfold extract_body.
  destruct payload as [| | | | |l|kvs|cls attrs items];
    try discriminate Htext; try discriminate H;
    cbn [bind hasattr getattr contains getitem data_field] in *;
    unfold has_key.
  - rewrite H. apply str_of_data.
  - destruct (assoc "data" attrs) as [d|].
    + injection H as ->. apply str_of_data.
    + destruct items as [kvs|]; [|discriminate H].
      cbn [contains getitem bind]; unfold has_key. rewrite H.
      apply str_of_data.
Qed.

Lemma extract_body_no_data (payload : pyval) :
  is_text payload = false ->
  data_field payload = None ->
  contains "data" payload = Ok false ->
  extract_body payload = str payload.
Proof.
  intros Htext H Hin. unfold extract_body.
  destruct payload as [| | | | |l|kvs|cls attrs items];
    try discriminate Htext; try discriminate Hin;
    cbn [bind hasattr getattr data_field] in *; unfold has_key in *.
  - rewrite Hin. reflexivity.
  - rewrite Hin. reflexivity.
  - destruct (assoc "data" attrs); [discriminate H|].
    rewrite Hin. reflexivity.
Qed.

(** X11.  For a payload that is not a string, extraction goes by the
    [data] field.  With a field, the result is [str] of what it holds;
    when that [str] raises, the handler takes over.  Without one, and
    with a membership test that finds nothing, the result is [str] of
    the payload itself; when the membership test raises, the handler
    takes over. *)
Theorem extract_structured_cases (payload : pyval) :
  is_text payload = false ->
  (forall data text,
      data_field payload = Some data ->
      str data = Ok text ->
      extract_markdown_text payload = Ok text)
  /\ (forall data e,
         data_field payload = Some data ->
         str data = Raise e ->
         extract_markdown_text payload = extract_handler e payload)
  /\ (forall text,
         data_field payload = None ->
         contains "data" payload = Ok false ->
         str payload = Ok text ->
         extract_markdown_text payload = Ok text)
  /\ (forall e,
         data_field payload = None ->
         contains "data" payload = Raise e ->
         extract_markdown_text payload = extract_handler e payload).
Proof.
  intros Htext. unfold extract_markdown_text. split; [|split; [|split]].
  - intros data text H Hs.
    now rewrite (extract_body_data payload data Htext H), Hs.
  - intros data e H Hs.
    now rewrite (extract_body_data payload data Htext H), Hs.
  - intros text H Hin Hs.
    now rewrite (extract_body_no_data payload Htext H Hin), Hs.
  - intros e H Hin. unfold extract_body.
    destruct payload as [| | | | |l|kvs|cls attrs items];
      try discriminate Htext; try discriminate Hin;
      cbn [bind hasattr getattr data_field contains] in *;
      unfold has_key in *.
    1-4: injection Hin as <-; reflexivity.
    destruct (assoc "data" attrs); [discriminate H|].
    destruct items as [kvs|]; [discriminate Hin|].
    injection Hin as <-. reflexivity.
Qed.

(** X12.  A string that [json.loads] decodes to a dict is not returned
    as it came: extraction gives [str] of the [data] field when the dict
    has one, and otherwise [str] of the decoded dict.  Only when that
    [str] raises does the handler give the string back, after its
    notice. *)
Theorem extract_decoded_dict (s : string) (kvs : list (string * pyval)) :
  json_loads s = Ok (PDict kvs) ->
  extract_markdown_text (PStr s)
  = try_except
      (str match assoc "data" kvs with
           | Some data => data
           | None => PDict kvs
           end)
      (fun e => print (extraction_notice e) ;; Ok s).
Proof.
  intros H. unfold extract_markdown_text, extract_body. rewrite H.
  cbn [bind hasattr contains getitem]; unfold has_key.
  destruct (assoc "data" kvs) as [data|]; cbn [bind].
  - rewrite str_of_data. reflexivity.
  - reflexivity.
Qed.

(** X13.  A string that [json.loads] decodes to something that is not a
    dict.  For a number, a boolean or [None] the membership test raises,
    and the handler gives the string back as it came, after its notice.
    A decoded string that does not contain the word data is returned
    itself, without the quotes of the document; one that contains it
    fails at the subscript, and the handler gives the document back.  A
    decoded list gives its [str], unless one of its items is the string
    data, which fails at the subscript likewise. *)
Theorem extract_decoded_other (s : string) (decoded : pyval) :
  json_loads s = Ok decoded ->
  (is_scalar decoded = true ->
   exists e,
     contains "data" decoded = Raise e
     /\ extract_markdown_text (PStr s)
        = (print (extraction_notice e) ;; Ok s))
  /\ (forall t,
         decoded = PStr t ->
         extract_markdown_text (PStr s)
         = if str_contains "data" t
           then print (extraction_notice
                         (TypeError
                            "string indices must be integers, not 'str'")) ;;
                Ok s
           else Ok t)
  /\ (forall items,
         decoded = PList items ->
         extract_markdown_text (PStr s)
         = if existsb (is_str_eq "data") items
           then print (extraction_notice
                         (TypeError
                            "list indices must be integers or slices, not str")) ;;
                Ok s
           else try_except (str (PList items))
                  (fun e => print (extraction_notice e) ;; Ok s)).
Proof.
  intros H. split; [|split].
  - intros Hs. unfold extract_markdown_text, extract_body. rewrite H.
    destruct decoded; try discriminate Hs; eexists; split; reflexivity.
  - intros t ->. unfold extract_markdown_text, extract_body. rewrite H.
    cbn [bind hasattr contains getitem].
    destruct (str_contains "data" t); reflexivity.
  - intros items ->. unfold extract_markdown_text, extract_body. rewrite H.
    cbn [bind hasattr contains getitem].
    destruct (existsb (is_str_eq "data") items); reflexivity.
Qed.

(** *** The report and its materials *)

Lemma join_from_first_non_string (i : nat) (before : list string)
    (v : pyval) (rest : list pyval) :
  is_text v = false ->
  join_from i (map PStr before ++ v :: rest)%list
  = Raise (TypeError
             ("sequence item "
              ++ NilZero.string_of_uint (Nat.to_uint (i + length before))
              ++ ": expected str instance, " ++ type_name v ++ " found")).
Proof.
  intros Hv. revert i; induction before as [|s before IH]; intros i;
    cbn [map app List.length join_from].
  - rewrite Nat.add_0_r. destruct v; try reflexivity. discriminate Hv.
  - rewrite (IH (S i)); cbn [bind].
    now rewrite Nat.add_succ_r.
Qed.

Lemma join_from_ok_iff (i : nat) (ms : list pyval) :
  (exists ss, join_from i ms = Ok ss) <-> forallb is_text ms = true.
Proof.
  revert i; induction ms as [|v ms IH]; intros i; cbn [join_from forallb].
  - split; eauto.
  - destruct v; cbn [is_text andb];
      try (split; [intros [ss H]; discriminate H | discriminate]).
    rewrite <- (IH (S i)). split.
    + intros [ss H].
      destruct (join_from (S i) ms) as [ss'|]; [eauto | discriminate H].
    + intros [ss' H]. rewrite H; cbn [bind]. eauto.
Qed.

(** X14.  [evaluate_mock] returns a report exactly when every material
    is a string.  Otherwise it raises the [TypeError] of the join, which
    names the position of the first material that is not one, and its
    type. *)
Theorem evaluate_mock_needs_strings (n d f l : string) :
  (forall ms,
      (exists report, evaluate_mock n d f l ms = Ok report)
      <-> forallb is_text ms = true)
  /\ (forall before v rest,
         is_text v = false ->
         evaluate_mock n d f l (map PStr before ++ v :: rest)%list
         = Raise (TypeError
                    ("sequence item "
                     ++ NilZero.string_of_uint (Nat.to_uint (length before))
                     ++ ": expected str instance, " ++ type_name v
                     ++ " found"))).
Proof.
  split.
  - intros ms. rewrite <- (join_from_ok_iff 0 ms).
    unfold evaluate_mock, join. split.
    + intros [report H].
      destruct (join_from 0 ms) as [ss|]; [eauto | discriminate H].
    + intros [ss H]. rewrite H; cbn [bind]. eauto.
  - intros before v rest Hv. unfold evaluate_mock, join.
    now rewrite (join_from_first_non_string 0 before v rest Hv).
Qed.

Lemma ends_with_app_r (a s x : string) : ends_with x s -> ends_with x (a ++ s).
Proof.
  intros [pre ->]. exists (a ++ pre). now rewrite append_assoc.
Qed.

Lemma ends_with_split (x s pre : string) :
  split_at x s = Some (pre, EmptyString) -> ends_with x s.
Proof.
  intros H. apply split_at_sound in H. rewrite append_nil_r in H.
  now exists pre.
Qed.

Lemma occurs_in_labelled_last (l x r a b a' b' : string) :
  split_at l a = Some (a', EmptyString) ->
  strip_prefix r b = Some b' ->
  occurs_in (l ++ x ++ r) (a ++ x ++ b).
Proof.
  intros Ha Hb. apply split_at_sound in Ha. apply strip_prefix_sound in Hb.
  rewrite append_nil_r in Ha. subst a b.
  exists a', b'. now rewrite !append_assoc.
Qed.

(** X15.  Whatever the five values are, the report opens with the
    heading that marks it as simulated and closes with the disclaimer
    and a line break: nothing a field holds can come before the one or
    after the other.  The project field stands a second time in the
    sentence on the learning outcomes. *)
Theorem evaluate_mock_frame (n d f l : string) (ms : list pyval)
    (report : string) :
  evaluate_mock n d f l ms = Ok report ->
  String.prefix (nl ++ "# 🎓 项目评价报告 (模拟数据)" ++ nl) report = true
  /\ ends_with ("*注：这是模拟评价，请配置Coze API Token和工作流ID后获取真实评价*"
                ++ nl) report
  /\ occurs_in ("通过本项目，学生能够掌握**" ++ f ++ "**领域的基础知识") report.
Proof.
  unfold evaluate_mock. destruct (join ", " ms) as [m|]; cbn [bind];
    [|discriminate].
  intros H; apply Ok_inj in H; subst report.
  split; [reflexivity|]. split.
  - do 12 apply ends_with_app_r.
    eapply ends_with_split; vm_compute; reflexivity.
  - do 10 apply occurs_in_app_r.
    eapply occurs_in_labelled_last; vm_compute; reflexivity.
Qed.


(** *** The dispatcher, beyond well-formed requests and plain answers *)

Lemma evaluate_mock_join_raises (n d f l : string) (ms : list pyval)
    (e : exn) :
  join ", " ms = Raise e -> evaluate_mock n d f l ms = Raise e.
Proof. intros H. unfold evaluate_mock. now rewrite H. Qed.

(** X16.  The fallback is not guarded.  When the materials cannot be
    joined, the error of the join leaves [evaluate_project] wherever the
    canned report is asked for: in the degraded modes, and in the
    handler of the remote path, where it takes the place of the error
    that was being reported. *)
Theorem materials_error_escapes (env : Env) (n d f l : string)
    (ms : list pyval) (e' : exn) :
  join ", " ms = Raise e' ->
  (get_coze_client env = Ok None ->
   evaluate_project env n d f l ms = Raise e')
  /\ (forall coze,
         get_coze_client env = Ok (Some coze) ->
         workflow_set env = false ->
         evaluate_project env n d f l ms = Raise e')
  /\ (forall coze w e,
         get_coze_client env = Ok (Some coze) ->
         getenv env "WORKFLOW_ID" = Some w ->
         str_truthy w = true ->
         workflows_runs_stream coze w (parameters_of n d f l ms) = Raise e
         \/ (exists response,
                workflows_runs_stream coze w (parameters_of n d f l ms)
                = Ok response
                /\ drain (response_events response) EmptyString = Raise e) ->
         evaluate_project env n d f l ms = Raise e').
Proof.
  intros Hjoin.
  pose proof (evaluate_mock_join_raises n d f l ms e' Hjoin) as Hmock.
  unfold evaluate_project. split; [|split].
  - intros Hc. unfold evaluate_with_coze. rewrite Hc; cbn [bind].
    exact Hmock.
  - intros coze Hc Hw. unfold evaluate_with_coze, workflow_set in *.
    rewrite Hc; cbn [bind].
    destruct (getenv env "WORKFLOW_ID") as [w|]; [|exact Hmock].
    rewrite Hw; cbn [negb]. exact Hmock.
  - intros coze w e Hc Hw Ht Hfail.
    rewrite (evaluate_with_coze_remote env n d f l ms coze w Hc Hw Ht).
    destruct Hfail as [Hcall | [response [Hcall Hdrain]]]; rewrite Hcall;
      cbn [bind try_except].
    + now rewrite Hmock.
    + rewrite Hdrain; cbn [bind]. now rewrite Hmock.
Qed.

(** X17.  When the stream ends without any event having contributed,
    the response object is extracted in place of the text.  For an
    object without a [data] field whose [str] is [text], the result is
    [text] when the body of the extraction returns, as it does when the
    membership test finds nothing; when the body raises, the result is
    [text] after the notice of the handler, and the banner report when
    that [print] raises. *)
Theorem silent_stream_shows_response (env : Env) (n d f l : string)
    (ms : list pyval) (coze : CozeClient) (w : string)
    (response : StreamResponse) (text : string) :
  get_coze_client env = Ok (Some coze) ->
  getenv env "WORKFLOW_ID" = Some w ->
  str_truthy w = true ->
  workflows_runs_stream coze w (parameters_of n d f l ms) = Ok response ->
  drain (response_events response) EmptyString = Ok EmptyString ->
  is_text (response_object response) = false ->
  data_field (response_object response) = None ->
  str (response_object response) = Ok text ->
  evaluate_project env n d f l ms
  = match extract_body (response_object response) with
    | Ok _ => Ok text
    | Raise e =>
        try_except (print (extraction_notice e) ;; Ok text)
          (fun e' => banner_report e' n d f l ms)
    end
  /\ (contains "data" (response_object response) = Ok false ->
      evaluate_project env n d f l ms = Ok text).
Proof.
  intros Hc Hw Ht Hcall Hdrain Htext Hdata Hstr. unfold evaluate_project.
  rewrite (evaluate_with_coze_drained env n d f l ms coze w response
             EmptyString Hc Hw Ht Hcall Hdrain).
  cbn [str_truthy]. unfold extract_markdown_text, extract_handler.
  rewrite Hstr. split.
  - destruct (extract_body (response_object response)) as [text'|e] eqn:Hb;
      cbn [try_except]; [|reflexivity].
    (* the body can only have returned [str] of the object *)
    revert Hb. unfold extract_body.
    destruct (response_object response) as [| | | | |items|kvs|cls attrs items];
      try discriminate Htext;
      cbn [bind hasattr getattr contains getitem data_field] in *;
      unfold has_key in *; try discriminate.
    + destruct (existsb (is_str_eq "data") items); cbn [bind];
        [discriminate|].
      rewrite Hstr. now intros ->.
    + rewrite Hdata; cbn [bind]. rewrite Hstr. now intros ->.
    + destruct (assoc "data" attrs); [discriminate Hdata|].
      destruct items as [kvs|]; cbn [bind]; [|discriminate].
      unfold has_key. rewrite Hdata; cbn [bind]. rewrite Hstr.
      now intros ->.
  - intros Hin.
    rewrite (extract_body_no_data _ Htext Hdata Hin), Hstr. reflexivity.
Qed.

(** X18.  Markdown that arrives in pieces is shown as it was sent.  When
    the stream is drained normally and the lines it leaves are not a
    document [json.loads] accepts, [evaluate_project] returns exactly
    those lines, after the notice of the handler; when that [print]
    raises, the result is the banner report. *)
Theorem streamed_text_returned_verbatim (env : Env) (n d f l : string)
    (ms : list pyval) (coze : CozeClient) (w : string)
    (response : StreamResponse) (text : string) (e : exn) :
  get_coze_client env = Ok (Some coze) ->
  getenv env "WORKFLOW_ID" = Some w ->
  str_truthy w = true ->
  workflows_runs_stream coze w (parameters_of n d f l ms) = Ok response ->
  drain (response_events response) EmptyString = Ok text ->
  text <> EmptyString ->
  json_loads text = Raise e ->
  evaluate_project env n d f l ms
  = try_except (print (extraction_notice e) ;; Ok text)
      (fun e' => banner_report e' n d f l ms).
Proof.
  intros Hc Hw Ht Hcall Hdrain Hne Hload. unfold evaluate_project.
  rewrite (evaluate_with_coze_drained env n d f l ms coze w response
             text Hc Hw Ht Hcall Hdrain).
  destruct text as [|c text]; [contradiction|].
  cbn [str_truthy]. unfold extract_markdown_text.
  rewrite (extract_body_rejected _ e Hload). reflexivity.
Qed.

(** X19.  An answer that arrives as a document is unwrapped.  When the
    stream is drained normally and the lines it leaves are a document
    that [json.loads] decodes to a payload whose [data] field holds a
    string, [evaluate_project] returns that string and nothing of the
    document around it. *)
Theorem streamed_document_unwrapped (env : Env) (n d f l : string)
    (ms : list pyval) (coze : CozeClient) (w : string)
    (response : StreamResponse) (text : string) (payload : pyval)
    (X : string) :
  get_coze_client env = Ok (Some coze) ->
  getenv env "WORKFLOW_ID" = Some w ->
  str_truthy w = true ->
  workflows_runs_stream coze w (parameters_of n d f l ms) = Ok response ->
  drain (response_events response) EmptyString = Ok text ->
  text <> EmptyString ->
  json_loads text = Ok payload ->
  data_field payload = Some (PStr X) ->
  evaluate_project env n d f l ms = Ok X.
Proof.
  intros Hc Hw Ht Hcall Hdrain Hne Hload Hdata. unfold evaluate_project.
  rewrite (evaluate_with_coze_drained env n d f l ms coze w response
             text Hc Hw Ht Hcall Hdrain).
  destruct text as [|c text]; [contradiction|].
  cbn [str_truthy]. unfold extract_markdown_text.
  now rewrite (extract_body_parsed _ payload X Hload Hdata).
Qed.
End App.

(** ** Closed instances

    The properties above, run on the sample runtime. *)

Local Abbreviation project :=
  (evaluate_project sample_repr sample_type_str sample_json_loads utf8_console).
Local Abbreviation project_on_ascii :=
  (evaluate_project sample_repr sample_type_str sample_json_loads
     ascii_console).
Local Abbreviation extraction :=
  (extract_markdown_text sample_repr sample_json_loads utf8_console).
Local Abbreviation draining := (drain sample_repr sample_type_str utf8_console).

(** C1, counterexample.  Token and workflow id are configured and the
    constructor of the client raises: the exception leaves
    [evaluate_project], which returns no string. *)
Lemma client_error_escapes :
  get_coze_client utf8_console env_client_fails = Raise incompatible_client
  /\ on_request (project env_client_fails) sample_request
     = Raise incompatible_client
  /\ ~ exists text,
         on_request (project env_client_fails) sample_request = Ok text.
Proof.
  split; [reflexivity|]. split; [reflexivity|].
  intros [text H]. discriminate H.
Qed.

(** C2, counterexample.  The token is absent and the console cannot
    encode the warning of line 26: the [print] raises before any [try],
    and the request ends in that exception and not in the report of
    [evaluate_mock]. *)
Lemma missing_token_warning_escapes :
  token_set env_no_token = false
  /\ on_request (project_on_ascii env_no_token) sample_request
     = Raise (mkExn "UnicodeEncodeError"
                "'ascii' codec can't encode characters in position 0-1: ordinal not in range(128)")
  /\ on_request (project_on_ascii env_no_token) sample_request
     <> on_request evaluate_mock sample_request.
Proof.
  split; [reflexivity|]. split; [reflexivity|].
  intros H. vm_compute in H. discriminate H.
Qed.

(** The other way out of the mock report: the workflow id is absent,
    the token is configured and the constructor of the client raises.
    The client is built before the workflow id is looked at. *)
Example no_workflow_yet_no_mock :
  workflow_set env_client_fails_no_workflow = false
  /\ on_request (project env_client_fails_no_workflow) sample_request
     = Raise incompatible_client.
Proof. split; reflexivity. Qed.

(** C2, instance: no token configured, the warning printed. *)
Lemma mock_mode_witness :
  (token_set env_no_token = false /\ utf8_console token_warning = Ok tt)
  /\ on_request (project env_no_token) sample_request
     = on_request evaluate_mock sample_request.
Proof.
  assert (H : token_set env_no_token = false
              /\ utf8_console token_warning = Ok tt)
    by (split; reflexivity).
  split; [exact H|].
  exact (proj1 (mock_mode sample_repr sample_type_str sample_json_loads
                  utf8_console env_no_token sample_request
                  (or_intror (or_introl H)))).
Defined.




(** C5, instance: the document decoded from its text. *)
Lemma extract_markdown_text_data_witness :
  sample_json_loads data_document = Ok (PDict [("data", PStr "X")])
  /\ data_field (PDict [("data", PStr "X")]) = Some (PStr "X")
  /\ extraction (PStr data_document) = Ok "X".
Proof.
  split; [reflexivity|]. split; [reflexivity|].
  exact (proj1 (proj2 (extract_markdown_text_data sample_repr
                         sample_json_loads utf8_console))
           data_document (PDict [("data", PStr "X")]) "X" eq_refl eq_refl).
Defined.

(** C6, counterexample.  A dict whose [data] field is an integer of
    more than 4300 digits: [str] raises on line 53, the handler is
    entered, and [str] of the payload raises again on line 57, outside
    any guard.  And the word hello on a console that cannot encode the
    notice of line 56. *)
Lemma extraction_raises :
  extraction (PDict [("data", PInt (2 ^ 16384))]) = Raise digit_limit_error
  /\ extract_markdown_text sample_repr sample_json_loads ascii_console
       (PStr "hello")
     = Raise (mkExn "UnicodeEncodeError"
                "'ascii' codec can't encode characters in position 0-5: ordinal not in range(128)").
Proof. split; vm_compute; reflexivity. Qed.

(** C6, instance: the word hello is no document. *)
Lemma extract_markdown_text_guard_witness :
  sample_json_loads "hello" = Raise (JSONDecodeError "Expecting value")
  /\ extraction (PStr "hello") = Ok "hello".
Proof.
  split; [reflexivity|].
  exact (proj1 (proj2 (proj2 (proj2
                  (extract_markdown_text_guard sample_repr sample_json_loads
                     utf8_console))))
           (JSONDecodeError "Expecting value") eq_refl eq_refl).
Defined.

(** C7, counterexample.  The stream yields nothing, so the response
    object is handed to the extraction; its [data] attribute holds an
    integer of more than 4300 digits, and the console cannot encode the
    notice of line 56.  [str] raises on line 53, the [print] of the
    handler raises, the extraction raises, and the function returns the
    banner report, which is not a result of the extraction. *)
Lemma extraction_error_becomes_banner :
  drain sample_repr sample_type_str ascii_console Exhausted EmptyString
  = Ok EmptyString
  /\ extract_markdown_text sample_repr sample_json_loads ascii_console
       (PObj "Stream" [("data", PInt (2 ^ 16384))] (Some []))
     = Raise (mkExn "UnicodeEncodeError"
                "'ascii' codec can't encode characters in position 0-5: ordinal not in range(128)")
  /\ exists mock,
       evaluate_mock "X" "demo" "技术开发" "本科" [PStr "代码"] = Ok mock
       /\ evaluate_with_coze sample_repr sample_type_str sample_json_loads
            ascii_console
            (env_remote
               (Ok (mkResponse
                      (PObj "Stream" [("data", PInt (2 ^ 16384))] (Some []))
                      Exhausted)))
            "X" "demo" "技术开发" "本科" [PStr "代码"]
          = Ok (banner
                ++ "'ascii' codec can't encode characters in position 0-5: ordinal not in range(128)"
                ++ nl ++ nl ++ mock).
Proof.
  split; [reflexivity|]. split; [vm_compute; reflexivity|].
  eexists. split; [reflexivity | vm_compute; reflexivity].
Qed.

(** C7, instance: a stream that yields text. *)
Lemma remote_result_is_extraction_witness :
  draining (response_events answered) EmptyString
  = Ok ("# 评价" ++ nl ++ "9" ++ nl)
  /\ extraction (PStr ("# 评价" ++ nl ++ "9" ++ nl))
     = Ok ("# 评价" ++ nl ++ "9" ++ nl)
  /\ evaluate_with_coze sample_repr sample_type_str sample_json_loads
       utf8_console (env_remote (Ok answered))
       "X" "demo" "技术开发" "本科" [PStr "代码"]
     = Ok ("# 评价" ++ nl ++ "9" ++ nl).
Proof.
  split; [reflexivity|]. split; [reflexivity|].
  refine (proj1 (remote_result_is_extraction sample_repr sample_type_str
                   sample_json_loads utf8_console
                   (env_remote (Ok answered)) "X" "demo" "技术开发" "本科"
                   [PStr "代码"] (sample_client (Ok answered)) "7400000000"
                   answered ("# 评价" ++ nl ++ "9" ++ nl)
                   eq_refl eq_refl eq_refl eq_refl eq_refl) _
            ("# 评价" ++ nl ++ "9" ++ nl) eq_refl).
  discriminate.
Defined.

(** C9, instance: the scores in the report of the sample request. *)
Lemma evaluate_mock_deterministic_witness :
  exists report,
    on_request evaluate_mock sample_request = Ok report
    /\ occurs_in "- **综合评分**: 8.2/10" report.
Proof.
  eexists. split; [reflexivity|].
  refine (proj1 (proj2 (proj2 evaluate_mock_deterministic)
                   "X" "demo" "技术开发" "本科" [PStr "代码"; PStr "文档"]
                   _ eq_refl)).
Defined.

(** The degraded mode that does not reach the token. *)
Example mock_without_library :
  on_request (project_on_ascii env_no_library) sample_request
  = on_request evaluate_mock sample_request.
Proof. reflexivity. Qed.

(** The scenario of the specification: the request X, technology,
    undergraduate, code and documents, description demo, with no
    credentials configured.  The result is the report of
    [evaluate_mock]; it names the project, the field and the materials,
    ends with the disclaimer and does not start with the banner. *)
Example scenario_no_credentials :
  exists report,
    on_request (project env_no_credentials) sample_request = Ok report
    /\ on_request evaluate_mock sample_request = Ok report
    /\ occurs_in ("- **项目名称**: X" ++ nl) report
    /\ occurs_in ("- **项目领域**: 技术开发" ++ nl) report
    /\ occurs_in ("- **提交材料**: 代码, 文档" ++ nl) report
    /\ occurs_in "*注：这是模拟评价，请配置Coze API Token和工作流ID后获取真实评价*"
                 report
    /\ String.prefix banner report = false.
Proof.
  eexists. split; [reflexivity|]. split; [reflexivity|].
  repeat split;
    try (eapply occurs_in_split; vm_compute; reflexivity).
Qed.

(** ** The decoder and structured payloads *)

(** X20.  A payload that is not a string is never handed to
    [json.loads]: its extraction is the same whatever the decoder
    does. *)
Theorem extract_structured_ignores_decoder
    (str_other : pyval -> result string)
    (json_loads json_loads' : string -> result pyval)
    (print : string -> result unit) (payload : pyval) :
  is_text payload = false ->
  extract_markdown_text str_other json_loads print payload
  = extract_markdown_text str_other json_loads' print payload.
Proof.
  intros Htext. destruct payload; try reflexivity. discriminate Htext.
Qed.

(** ** Closed instances of the further properties *)

(** X2, instance: no token, and a constructor that would raise. *)
Lemma degraded_mode_ignores_constructor_witness :
  token_set env_no_token = false
  /\ project
       (with_constructor env_no_token (fun _ => Raise incompatible_client))
       "X" "demo" "技术开发" "本科" [PStr "代码"]
     = project env_no_token "X" "demo" "技术开发" "本科" [PStr "代码"].
Proof.
  split; [reflexivity|].
  apply (degraded_mode_ignores_constructor sample_repr sample_type_str
           sample_json_loads utf8_console env_no_token).
  right. reflexivity.
Defined.

(** X3, instance: a client that answers every call, and one that answers
    the configured workflow only. *)
Lemma client_consulted_at_one_call_witness :
  project
    (with_constructor (env_remote (Ok answered))
       (fun _ => Ok (sample_client (Ok answered))))
    "X" "demo" "技术开发" "本科" [PStr "代码"]
  = project
      (with_constructor (env_remote (Ok answered))
         (fun _ => Ok (mkClient
                         (fun w _ =>
                            if String.eqb w "7400000000" then Ok answered
                            else Raise (mkExn "CozeAPIError" "not found")))))
      "X" "demo" "技术开发" "本科" [PStr "代码"].
Proof.
  apply (client_consulted_at_one_call sample_repr sample_type_str
           sample_json_loads utf8_console (env_remote (Ok answered))).
  intros w H. injection H as <-. reflexivity.
Defined.

(** X4, instance: a third setting added to the environment. *)
Lemma only_two_settings_read_witness :
  project
    (with_getenv (env_remote (Ok answered))
       (fun name =>
          if String.eqb name "LANG" then Some "zh_CN.UTF-8"
          else getenv (env_remote (Ok answered)) name))
    "X" "demo" "技术开发" "本科" [PStr "代码"]
  = project (env_remote (Ok answered))
      "X" "demo" "技术开发" "本科" [PStr "代码"].
Proof.
  apply (only_two_settings_read sample_repr sample_type_str
           sample_json_loads utf8_console (env_remote (Ok answered)));
    reflexivity.
Defined.

(** X5, instance: the token missing, on a console that cannot encode
    the warning. *)
Lemma mode_notice_demo_witness :
  mode_notice env_no_token <> workflow_notice
  /\ project_on_ascii env_no_token "X" "demo" "技术开发" "本科" [PStr "代码"]
     = Raise (mkExn "UnicodeEncodeError"
                "'ascii' codec can't encode characters in position 0-1: ordinal not in range(128)").
Proof.
  assert (H : mode_notice env_no_token <> workflow_notice)
    by (vm_compute; discriminate).
  split; [exact H|].
  exact (proj1 (mode_notice_demo sample_repr sample_type_str
                  sample_json_loads ascii_console env_no_token)
           H "X" "demo" "技术开发" "本科" [PStr "代码"]).
Defined.

(** X6, instance: token configured, workflow id not. *)
Lemma mode_notice_remote_yet_mock_witness :
  workflow_set env_no_workflow = false
  /\ mode_notice env_no_workflow = workflow_notice
  /\ project env_no_workflow "X" "demo" "技术开发" "本科" [PStr "代码"]
     = evaluate_mock "X" "demo" "技术开发" "本科" [PStr "代码"].
Proof.
  split; [reflexivity|].
  destruct (mode_notice_remote_yet_mock sample_repr sample_type_str
              sample_json_loads utf8_console env_no_workflow
              (sample_client (Raise (mkExn "CozeAPIError" "no workflow")))
              eq_refl eq_refl) as [Hnotice Hmock].
  split; [exact Hnotice|]. apply Hmock.
Defined.

(** X9, instance: a message, an end marker and an output. *)
Lemma drain_appends_lines_witness :
  draining (response_events answered) EmptyString
  = Ok ("# 评价" ++ nl ++ "9" ++ nl)
  /\ ("# 评价" ++ nl ++ "9" ++ nl = EmptyString
      \/ exists lines,
           "# 评价" ++ nl ++ "9" ++ nl = EmptyString ++ lines ++ nl).
Proof.
  split; [reflexivity|].
  exact (drain_appends_lines sample_repr sample_type_str utf8_console
           (response_events answered) EmptyString
           ("# 评价" ++ nl ++ "9" ++ nl) eq_refl).
Defined.

(** X10, instance: a content field that holds [None], after a message. *)
Lemma drain_first_failure_witness :
  draining (stream_of [message_event "a"]) EmptyString = Ok ("a" ++ nl)
  /\ draining
       (stream_app (stream_of [message_event "a"])
          (Yield (PObj "Event" [("content", PNone)] None)
                 (stream_of [message_event "b"])))
       EmptyString
     = Raise (TypeError
                "unsupported operand type(s) for +: 'NoneType' and 'str'").
Proof.
  split; [reflexivity|].
  exact (proj1 (drain_first_failure sample_repr sample_type_str utf8_console
                  (stream_of [message_event "a"])
                  (PObj "Event" [("content", PNone)] None)
                  (stream_of [message_event "b"]) EmptyString ("a" ++ nl)
                  (TypeError
                     "unsupported operand type(s) for +: 'NoneType' and 'str'")
                  eq_refl)
           eq_refl).
Defined.

(** X11, instance: a dict whose [data] field holds a list. *)
Lemma extract_structured_cases_witness :
  data_field (PDict [("data", PList [PInt 1; PInt 2])])
  = Some (PList [PInt 1; PInt 2])
  /\ extraction (PDict [("data", PList [PInt 1; PInt 2])]) = Ok "[1, 2]".
Proof.
  split; [reflexivity|].
  exact (proj1 (extract_structured_cases sample_repr sample_json_loads
                  utf8_console (PDict [("data", PList [PInt 1; PInt 2])])
                  eq_refl)
           (PList [PInt 1; PInt 2]) "[1, 2]" eq_refl eq_refl).
Defined.

(** X12, instance: a document without the key. *)
Lemma extract_decoded_dict_witness :
  sample_json_loads ("{" ++ dquote ++ "score" ++ dquote ++ ": 8}")
  = Ok (PDict [("score", PInt 8)])
  /\ extraction (PStr ("{" ++ dquote ++ "score" ++ dquote ++ ": 8}"))
     = Ok "{'score': 8}".
Proof.
  split; [reflexivity|].
  exact (extract_decoded_dict sample_repr sample_json_loads utf8_console
           ("{" ++ dquote ++ "score" ++ dquote ++ ": 8}")
           [("score", PInt 8)] eq_refl).
Defined.

(** X13, instance: a number. *)
Lemma extract_decoded_other_witness :
  sample_json_loads "12" = Ok (PInt 12)
  /\ exists e,
       contains "data" (PInt 12) = Raise e
       /\ extraction (PStr "12")
          = (utf8_console (extraction_notice e) ;; Ok "12").
Proof.
  split; [reflexivity|].
  exact (proj1 (extract_decoded_other sample_repr sample_json_loads
                  utf8_console "12" (PInt 12) eq_refl) eq_refl).
Defined.

(** X14, instance: a number among the materials. *)
Lemma evaluate_mock_needs_strings_witness :
  evaluate_mock "X" "demo" "技术开发" "本科" [PStr "代码"; PInt 1; PStr "文档"]
  = Raise (TypeError "sequence item 1: expected str instance, int found").
Proof.
  exact (proj2 (evaluate_mock_needs_strings "X" "demo" "技术开发" "本科")
           ["代码"] (PInt 1) [PStr "文档"] eq_refl).
Defined.

(** X15, instance: the report of the sample request. *)
Lemma evaluate_mock_frame_witness :
  exists report,
    on_request evaluate_mock sample_request = Ok report
    /\ String.prefix (nl ++ "# 🎓 项目评价报告 (模拟数据)" ++ nl) report = true
    /\ occurs_in ("通过本项目，学生能够掌握**" ++ "技术开发" ++ "**领域的基础知识")
                 report.
Proof.
  eexists. split; [reflexivity|].
  refine (let H := evaluate_mock_frame "X" "demo" "技术开发" "本科"
                     [PStr "代码"; PStr "文档"] _ eq_refl in
          conj (proj1 H) (proj2 (proj2 H))).
Defined.

(** X16, instance: a number as the only material, [cozepy] missing. *)
Lemma materials_error_escapes_witness :
  join ", " [PInt 1]
  = Raise (TypeError "sequence item 0: expected str instance, int found")
  /\ project env_no_library "X" "demo" "技术开发" "本科" [PInt 1]
     = Raise (TypeError "sequence item 0: expected str instance, int found").
Proof.
  split; [reflexivity|].
  exact (proj1 (materials_error_escapes sample_repr sample_type_str
                  sample_json_loads utf8_console
                  env_no_library "X" "demo" "技术开发" "本科" [PInt 1]
                  (TypeError
                     "sequence item 0: expected str instance, int found")
                  eq_refl)
           eq_refl).
Defined.

(** X17, instance: a stream of one end marker. *)
Lemma silent_stream_shows_response_witness :
  draining (stream_of [done_event]) EmptyString = Ok EmptyString
  /\ contains "data" stream_object = Ok false
  /\ project
       (env_remote (Ok (mkResponse stream_object (stream_of [done_event]))))
       "X" "demo" "技术开发" "本科" [PStr "代码"]
     = Ok "<Stream object>".
Proof.
  split; [reflexivity|]. split; [reflexivity|].
  exact (proj2 (silent_stream_shows_response sample_repr sample_type_str
                  sample_json_loads utf8_console
                  (env_remote
                     (Ok (mkResponse stream_object (stream_of [done_event]))))
                  "X" "demo" "技术开发" "本科" [PStr "代码"]
                  (sample_client
                     (Ok (mkResponse stream_object (stream_of [done_event]))))
                  "7400000000"
                  (mkResponse stream_object (stream_of [done_event]))
                  "<Stream object>"
                  eq_refl eq_refl eq_refl eq_refl eq_refl eq_refl eq_refl
                  eq_refl)
           eq_refl).
Defined.

(** X18, instance: a heading and a score, streamed in two events. *)
Lemma streamed_text_returned_verbatim_witness :
  sample_json_loads ("# 评价" ++ nl ++ "9" ++ nl)
  = Raise (JSONDecodeError "Expecting value")
  /\ project (env_remote (Ok answered))
       "X" "demo" "技术开发" "本科" [PStr "代码"]
     = Ok ("# 评价" ++ nl ++ "9" ++ nl).
Proof.
  split; [reflexivity|].
  refine (streamed_text_returned_verbatim sample_repr sample_type_str
            sample_json_loads utf8_console
            (env_remote (Ok answered)) "X" "demo" "技术开发" "本科"
            [PStr "代码"] (sample_client (Ok answered)) "7400000000" answered
            ("# 评价" ++ nl ++ "9" ++ nl)
            (JSONDecodeError "Expecting value")
            eq_refl eq_refl eq_refl eq_refl eq_refl _ eq_refl).
  discriminate.
Defined.

(** X19, instance: the document with the key, sent as one event. *)
Lemma streamed_document_unwrapped_witness :
  sample_json_loads (data_document ++ nl) = Ok (PDict [("data", PStr "X")])
  /\ project
       (env_remote
          (Ok (mkResponse stream_object
                 (stream_of [content_event data_document]))))
       "X" "demo" "技术开发" "本科" [PStr "代码"]
     = Ok "X".
Proof.
  split; [reflexivity|].
  refine (streamed_document_unwrapped sample_repr sample_type_str
            sample_json_loads utf8_console
            (env_remote
               (Ok (mkResponse stream_object
                      (stream_of [content_event data_document]))))
            "X" "demo" "技术开发" "本科" [PStr "代码"]
            (sample_client
               (Ok (mkResponse stream_object
                      (stream_of [content_event data_document]))))
            "7400000000"
            (mkResponse stream_object (stream_of [content_event data_document]))
            (data_document ++ nl) (PDict [("data", PStr "X")]) "X"
            eq_refl eq_refl eq_refl eq_refl eq_refl _ eq_refl eq_refl).
  discriminate.
Defined.

(** X20, instance: the dict with the key, and two decoders. *)
Lemma extract_structured_ignores_decoder_witness :
  extraction (PDict [("data", PStr "X")])
  = extract_markdown_text sample_repr
      (fun _ => Raise (JSONDecodeError "Expecting value")) utf8_console
      (PDict [("data", PStr "X")]).
Proof.
  exact (extract_structured_ignores_decoder sample_repr sample_json_loads
           (fun _ => Raise (JSONDecodeError "Expecting value")) utf8_console
           (PDict [("data", PStr "X")]) eq_refl).
Defined.
